(** * cdf2cim.parser: a shallow embedding and its verified properties

    The module [cdf2cim/parser.py] maps one CF field (the global attributes
    of a netCDF file, its time coordinate and its path) to a simulation
    identifier, a set of CIM2 properties and the dates spanned by the field.

    The embedding reads the module as Python 3 (its [isinstance(..., (str,
    bytes))] test is the Python 3 spelling of a text test):
    - a [dict] keeps its keys in insertion order, [items()] is a live view
      and its iterator raises [RuntimeError] as soon as the size of the dict
      changed during the iteration;
    - text is a sequence of characters, here the 7-bit ones that CMIP
      attributes are written in;
    - [float] is IEEE binary64 with correctly rounded decimal input;
    - an exception carries the lines that the handlers on its way logged;
    - the cf library is the one for Python 3, where [dim('T')] raises
      [ValueError] for a field without a T axis.

    A time coordinate is given by what the parser reads of it: whether its
    units are a reference time, its number of dimensions, the date-times of
    its cells and, when it has bounds, the two date-times that bound each
    cell.  Indexing in cf keeps the axes, so one index picks one row.

    What belongs to the cf library ([cf.Units], [cf.Data(...).dtarray]) and
    to the package's [constants] module is a parameter of [Section Parser]. *)

From Stdlib Require Import ZArith List String Ascii Bool Lia.
From Stdlib Require Import Permutation Sorted.
From Stdlib Require Import Floats.SpecFloat.
Import ListNotations.

Local Open Scope string_scope.
Local Open Scope list_scope.

(** ** Python text *)

Module PyStr.

Definition code (c : ascii) : N := N_of_ascii c.

(** [c.isdigit()] on 7-bit text, the class [\d] of [re]. *)
Definition is_digit (c : ascii) : bool :=
  (48 <=? code c)%N && (code c <=? 57)%N.

(** [c.isspace()] for [str]: tab to carriage return, the four
    information separators and the space. *)
Definition is_space (c : ascii) : bool :=
  ((9 <=? code c)%N && (code c <=? 13)%N)
  || ((28 <=? code c)%N && (code c <=? 32)%N).

Definition digit_value (c : ascii) : Z := (Z.of_N (code c) - 48)%Z.

(** [int(s)] for a run of decimal digits. *)
Definition int_of_digits (s : string) : Z :=
  fold_left (fun acc c => (10 * acc + digit_value c)%Z) (list_ascii_of_string s) 0%Z.

Definition flush (acc : string) : list string :=
  match acc with EmptyString => [] | _ => [acc] end.

Definition snoc (s : string) (c : ascii) : string :=
  String.append s (String c EmptyString).

(** The maximal runs of characters of the class [p], from left to right.
    [acc] is the run being read: it grows as long as the next character is
    in the class and is given out when one is not, or at the end. *)
Fixpoint runs (p : ascii -> bool) (acc : string) (s : string) : list string :=
  match s with
  | EmptyString => flush acc
  | String c s' =>
      if p c then runs p (snoc acc c) s'
      else flush acc ++ runs p EmptyString s'
  end.

(** [re.findall('\d+', s)]: the greedy [+] takes each run of digits whole. *)
Definition findall_digits (s : string) : list string := runs is_digit EmptyString s.

(** [s.split()]: the runs of characters that are not white space. *)
Definition split (s : string) : list string :=
  runs (fun c => negb (is_space c)) EmptyString s.

(** [s.split(sep)] for a separator of one character: empty pieces are
    kept, so the result is never empty. *)
Fixpoint split_on_aux (sep : ascii) (acc : string) (s : string) : list string :=
  match s with
  | EmptyString => [acc]
  | String c s' =>
      if Ascii.eqb c sep then acc :: split_on_aux sep EmptyString s'
      else split_on_aux sep (snoc acc c) s'
  end.

Definition split_on (sep : ascii) (s : string) : list string :=
  split_on_aux sep EmptyString s.

(** [s.replace(c, '')]: every occurrence of the character is dropped. *)
Fixpoint remove_char (c : ascii) (s : string) : string :=
  match s with
  | EmptyString => EmptyString
  | String a s' =>
      if Ascii.eqb a c then remove_char c s' else String a (remove_char c s')
  end.

(** [l[-k]] for [k >= 1]; [None] stands for [IndexError]. *)
Definition index_from_end {A : Type} (k : nat) (l : list A) : option A :=
  if (List.length l <? k)%nat then None else nth_error l (List.length l - k).

(** [sorted(l)] on text: ascending code-point order.  A straight insertion
    keeps equal keys in their input order, as the built-in does. *)
Fixpoint insert_sorted (x : string) (l : list string) : list string :=
  match l with
  | [] => [x]
  | y :: l' => if String.ltb x y then x :: l else y :: insert_sorted x l'
  end.

Definition sorted (l : list string) : list string :=
  fold_left (fun acc x => insert_sorted x acc) l [].

End PyStr.

(** ** Python [float] *)

Module PyFloat.

(** IEEE binary64. *)
Definition prec : Z := 53.
Definition emax : Z := 1024.

Definition float : Type := spec_float.

(** The binary64 nearest to [(-1)^neg * m * 10^e10], ties to even: what the
    correctly rounded decimal input of [float(text)] returns. *)
Definition of_decimal (neg : bool) (m : Z) (e10 : Z) : float :=
  match m with
  | Zpos p =>
      if (0 <=? e10)%Z
      then binary_normalize prec emax (if neg then - (m * 10 ^ e10) else m * 10 ^ e10)%Z 0 neg
      else SFdiv prec emax (S754_finite neg p 0)
                           (S754_finite false (Z.to_pos (10 ^ (- e10))) 0)
  | _ => S754_zero neg
  end.

(** White space of the C locale, which [float] strips at both ends. *)
Definition is_c_space (c : ascii) : bool :=
  ((9 <=? PyStr.code c)%N && (PyStr.code c <=? 13)%N) || (PyStr.code c =? 32)%N.

Fixpoint span (p : ascii -> bool) (l : list ascii) : list ascii * list ascii :=
  match l with
  | c :: l' => if p c then let (a, b) := span p l' in (c :: a, b) else ([], l)
  | [] => ([], [])
  end.

Definition lstrip (l : list ascii) : list ascii := snd (span is_c_space l).
Definition strip (l : list ascii) : list ascii := rev (lstrip (rev (lstrip l))).

(** An underscore is accepted between two digits only; it is then dropped. *)
Fixpoint drop_underscores (prev_digit : bool) (l : list ascii) : option (list ascii) :=
  match l with
  | [] => Some []
  | c :: l' =>
      if Ascii.eqb c "_" then
        match l' with
        | d :: _ => if prev_digit && PyStr.is_digit d then drop_underscores false l' else None
        | [] => None
        end
      else option_map (cons c) (drop_underscores (PyStr.is_digit c) l')
  end.

Definition lower (c : ascii) : ascii :=
  if ((65 <=? PyStr.code c)%N && (PyStr.code c <=? 90)%N)%bool
  then ascii_of_N (PyStr.code c + 32) else c.

Definition digits_value (l : list ascii) : Z :=
  fold_left (fun acc c => (10 * acc + PyStr.digit_value c)%Z) l 0%Z.

Definition take_sign (l : list ascii) : bool * list ascii :=
  match l with
  | c :: l' => if Ascii.eqb c "-" then (true, l')
               else if Ascii.eqb c "+" then (false, l') else (false, l)
  | [] => (false, [])
  end.

Definition is_word (w : string) (l : list ascii) : bool :=
  String.eqb w (string_of_list_ascii (map lower l)).

(** The grammar of a float literal: sign, then [inf], [infinity], [nan] or
    digits with an optional point and an optional exponent.  [None] stands
    for [ValueError]. *)
Definition parse_literal (l : list ascii) : option float :=
  let (neg, l1) := take_sign l in
  if is_word "inf" l1 || is_word "infinity" l1 then Some (S754_infinity neg)
  else if is_word "nan" l1 then Some S754_nan
  else
    let (ip, l2) := span PyStr.is_digit l1 in
    let (fp, l3) :=
      match l2 with
      | c :: r => if Ascii.eqb c "." then span PyStr.is_digit r else ([], l2)
      | [] => ([], l2)
      end in
    match ip ++ fp with
    | [] => None
    | _ :: _ =>
        let m := digits_value (ip ++ fp) in
        let scale := Z.of_nat (List.length fp) in
        match l3 with
        | [] => Some (of_decimal neg m (- scale))
        | c :: r =>
            if Ascii.eqb (lower c) "e" then
              let (eneg, r1) := take_sign r in
              let (ed, r2) := span PyStr.is_digit r1 in
              match ed, r2 with
              | _ :: _, [] =>
                  let e := digits_value ed in
                  Some (of_decimal neg m ((if eneg then - e else e) - scale))
              | _, _ => None
              end
            else None
        end
    end.

(** [float(s)] for text [s]. *)
Definition of_text (s : string) : option float :=
  match drop_underscores false (strip (list_ascii_of_string s)) with
  | Some l => parse_literal l
  | None => None
  end.

End PyFloat.

(** ** Values, dicts and exceptions *)

(** What a netCDF attribute or a CIM2 property holds. *)
Inductive value : Type :=
| VStr (s : string)
| VInt (n : Z)
| VFloat (x : PyFloat.float)
| VTuple (t : list string).

(** [v == s] for the result [v] of a [get] and a text constant [s]. *)
Definition equals_text (v : option value) (s : string) : bool :=
  match v with
  | Some (VStr t) => String.eqb t s
  | _ => false
  end.

Module PyDict.

(** A dict with text keys: its items in insertion order. *)
Definition dict (V : Type) : Type := list (string * V).

Fixpoint get {V : Type} (k : string) (d : dict V) : option V :=
  match d with
  | [] => None
  | (k', v) :: d' => if String.eqb k k' then Some v else get k d'
  end.

Definition contains {V : Type} (k : string) (d : dict V) : bool :=
  match get k d with Some _ => true | None => false end.

(** [d[k] = v]: a key already there keeps its place. *)
Fixpoint set {V : Type} (k : string) (v : V) (d : dict V) : dict V :=
  match d with
  | [] => [(k, v)]
  | (k', v') :: d' =>
      if String.eqb k k' then (k, v) :: d' else (k', v') :: set k v d'
  end.

(** [del d[k]] for a key of [d]. *)
Fixpoint del {V : Type} (k : string) (d : dict V) : dict V :=
  match d with
  | [] => []
  | (k', v') :: d' => if String.eqb k k' then d' else (k', v') :: del k d'
  end.

(** [d.update(pairs)]. *)
Definition update {V : Type} (pairs : list (string * V)) (d : dict V) : dict V :=
  fold_left (fun acc kv => set (fst kv) (snd kv) acc) pairs d.

Definition keys {V : Type} (d : dict V) : list string := map fst d.

(** The invariant of a dict: no key twice. *)
Definition wf {V : Type} (d : dict V) : Prop := NoDup (keys d).

End PyDict.

Abbreviation dict := PyDict.dict.

Inductive exn : Type :=
| UnboundLocalError (name : string)
| RuntimeError (msg : string)
| AttributeError (attr : string)
| KeyError (key : string)
| TypeError
| ValueError
| IndexError
| LibraryError (what : string).

(** The result of a call: a value, or an exception together with the lines
    that the handlers wrote to the log while it went up. *)
Inductive outcome (A : Type) : Type :=
| Returned (a : A)
| Raised (e : exn) (log : list string).

Arguments Returned {A} a.
Arguments Raised {A} e log.

Definition bind {A B : Type} (m : outcome A) (k : A -> outcome B) : outcome B :=
  match m with
  | Returned a => k a
  | Raised e log => Raised e log
  end.

Notation "x <- m ;; k" := (bind m (fun x => k))
  (at level 61, m at next level, right associativity).

(** [try: m  except: logger.log(msg); raise]. *)
Definition logging {A : Type} (msg : string) (m : outcome A) : outcome A :=
  match m with
  | Returned a => Returned a
  | Raised e log => Raised e (log ++ [msg])
  end.

Definition or_raise {A : Type} (e : exn) (o : option A) : outcome A :=
  match o with
  | Some a => Returned a
  | None => Raised e []
  end.

(** ** The pattern of [parent_time_units] *)

Module UnitsPattern.

Definition is_blank (c : ascii) : bool := Ascii.eqb c " ".
Definition is_newline (c : ascii) : bool := (PyStr.code c =? 10)%N.
Definition inside (c : ascii) : bool := negb (Ascii.eqb c ")") && negb (is_newline c).

(** The end of the pattern at the start of [l]: blanks, an opening
    parenthesis, the lazy second group and a closing parenthesis.  The
    result is the second group. *)
Definition tail (l : list ascii) : option (list ascii) :=
  match snd (PyFloat.span is_blank l) with
  | c :: r =>
      if Ascii.eqb c "(" then
        let (g, r') := PyFloat.span inside r in
        match r' with
        | c' :: _ => if Ascii.eqb c' ")" then Some g else None
        | [] => None
        end
      else None
  | [] => None
  end.

(** The whole pattern at the start of [l]: the greedy first group takes
    the longest prefix without a newline after which [tail] matches. *)
Fixpoint groups (l : list ascii) : option (list ascii * list ascii) :=
  let here := option_map (fun g => ([], g)) (tail l) in
  match l with
  | [] => here
  | c :: l' =>
      if is_newline c then here
      else
        match groups l' with
        | Some (g1, g2) => Some (c :: g1, g2)
        | None => here
        end
  end.

(** [re.match(pattern, s)] and its [groups()], for the pattern of line 189:
    any text, blanks, and any text in parentheses. *)
Definition re_match (s : string) : option (string * string) :=
  option_map (fun g => (string_of_list_ascii (fst g), string_of_list_ascii (snd g)))
             (groups (list_ascii_of_string s)).

End UnitsPattern.

(** ** The parser *)

Definition properties_t : Type := dict value.
Definition identifier_t : Type := list (string * value).

(** The keys that vary from file to file of one simulation. *)
Definition volatile_keys : list string :=
  ["contact"; "references"; "forcing"; "variant_info"; "dataset_versions"; "filenames"].

Definition is_volatile (k : string) : bool :=
  existsb (String.eqb k) volatile_keys.

Definition _get_simulation_id (cim2_properties : properties_t) : identifier_t :=
  filter (fun kv => negb (is_volatile (fst kv))) cim2_properties.

Definition parent_index_names : list string :=
  ["parent_realization_index"; "parent_initialization_index";
   "parent_physics_index"; "parent_forcing_index"].

(** [zip(names, map(int, re.findall('\d+', label)))]; [zip] stops with the
    shorter of the two. *)
Definition parent_indices (label : string) : list (string * value) :=
  combine parent_index_names
          (map (fun r => VInt (PyStr.int_of_digits r)) (PyStr.findall_digits label)).

(** [d.get(key, default)] handed to [re.findall]: the text to scan, or
    [TypeError] for a value that is not text. *)
Definition label_text (key default : string) (d : dict value) : outcome string :=
  match PyDict.get key d with
  | None => Returned default
  | Some (VStr s) => Returned s
  | Some _ => Raised TypeError []
  end.

(** The loop [for key, value in d.items(): if value == "N/A": del d[key]].
    [used] is the size of the dict when the iterator was made and [it] what
    the iterator has still to visit; each step first compares the sizes. *)
Fixpoint prune_loop (used : nat) (it : list (string * value)) (d : properties_t)
  : outcome properties_t :=
  if negb (List.length d =? used)%nat
  then Raised (RuntimeError "dictionary changed size during iteration") []
  else
    match it with
    | [] => Returned d
    | (key, v) :: it' =>
        if equals_text (Some v) "N/A"
        then prune_loop used it' (PyDict.del key d)
        else prune_loop used it' d
    end.

(** [float(v.replace('D', ''))] inside its handler, for the value of a
    branch time that is not yet a float. *)
Definition float_of_replaced (v : value) (msg : string) : outcome value :=
  logging msg
    match v with
    | VStr s =>
        or_raise ValueError
          (option_map VFloat (PyFloat.of_text (PyStr.remove_char "D" s)))
    | _ => Raised (AttributeError "replace") []
    end.

Section Parser.

(** *** What the module takes from elsewhere *)

(** The cf library: units objects, date-times, [cf.Units(units, calendar)]
    and [str(cf.Data([x], units=u).dtarray[0])]. *)
Variable Units : Type.
Variable datetime : Type.
Variable cf_Units : string -> value -> outcome Units.
Variable cf_date_string : value -> Units -> outcome string.

(** The [constants] module: the two era tags and the two tables of simple
    mappings, from the name of an attribute to the name of a property. *)
Variable CMIP6 CMIP5 : string.
Variable CMIP6_TO_CIM2 CMIP5_TO_CIM2 : dict string.

(** *** The field *)

(** A time coordinate, as far as the parser looks at it.  [points] is the
    [dtarray] of the coordinate, one date-time per cell; [bounds] that of
    its bounds, one row of two date-times per cell. *)
Record TimeCoords : Type := {
  isreftime : bool;
  tc_Units : Units;
  ndim : nat;
  points : list datetime;
  bounds : option (list (datetime * datetime));
  calendar : option string
}.

Definition size (tc : TimeCoords) : nat := List.length (points tc).
Definition has_bounds (tc : TimeCoords) : bool :=
  match bounds tc with Some _ => true | None => false end.

(** A CF field: [properties()], the coordinate of its T axis when it has
    one, and [fpath]. *)
Record Field : Type := {
  properties : dict value;
  dim_T : option TimeCoords;
  fpath : string
}.

(** [cf_field.dim('T')]: the coordinate of the T axis; cf raises
    [ValueError] for a field that has none. *)
Definition dim (cf_field : Field) : outcome TimeCoords :=
  or_raise ValueError (dim_T cf_field).

(** *** Dates *)

(** [a[i]] for one index, which may count from the end. *)
Definition item {A : Type} (i : Z) (a : list A) : option A :=
  if (0 <=? i)%Z then nth_error a (Z.to_nat i)
  else PyStr.index_from_end (Z.to_nat (- i)) a.

(** [a[index]] in cf: the rows picked by the indices, the axis kept. *)
Fixpoint take {A : Type} (index : list Z) (a : list A) : outcome (list A) :=
  match index with
  | [] => Returned []
  | i :: index' =>
      x <- or_raise IndexError (item i a) ;;
      xs <- take index' a ;;
      Returned (x :: xs)
  end.

(** [.flat] of an array with two columns: row after row. *)
Definition flat (rows : list (datetime * datetime)) : list datetime :=
  flat_map (fun row => [fst row; snd row]) rows.

Definition _get_field_start_end_dates (time_coords : option TimeCoords)
  : outcome (list datetime) :=
  match time_coords with
  | None => Returned []
  | Some tc =>
      if negb (isreftime tc) || (1 <? ndim tc)%nat then Returned []
      else
        let index := if (size tc =? 1)%nat then [0%Z] else [0%Z; (-1)%Z] in
        match bounds tc with
        | Some b => rows <- take index b ;; Returned (flat rows)
        | None => take index (points tc)
        end
  end.

(** [getattr(time_coords, 'calendar', 'gregorian')]. *)
Definition _get_calendar (time_coords : option TimeCoords) : string :=
  match time_coords with
  | Some tc => match calendar tc with Some c => c | None => "gregorian" end
  | None => "gregorian"
  end.

(** *** The era *)

Definition _get_mip_era (global_attributes : dict value) : option string :=
  if equals_text (PyDict.get "mip_era" global_attributes) CMIP6 then Some CMIP6
  else if equals_text (PyDict.get "project_id" global_attributes) CMIP5 then Some CMIP5
  else None.

(** [mip_era == tag] for the result of [_get_mip_era]. *)
Definition era_is (mip_era : option string) (tag : string) : bool :=
  match mip_era with Some e => String.eqb e tag | None => false end.

(** *** Properties of the CMIP5 era *)

Definition _parse_cmip5_properties
           (cim2_properties : properties_t) (global_attributes : dict value)
           (time_coords : option TimeCoords) : outcome properties_t :=
  pruned <- prune_loop (List.length cim2_properties) cim2_properties cim2_properties ;;
  label <- label_text "parent_experiment_rip" "N/A" global_attributes ;;
  Returned (PyDict.update (parent_indices label) pruned).

(** *** Properties of the CMIP6 era *)

(** [time_coords.Units]. *)
Definition Units_of (time_coords : option TimeCoords) : outcome Units :=
  match time_coords with
  | Some tc => Returned (tc_Units tc)
  | None => Raised (AttributeError "Units") []
  end.

Definition resolve_parent_time_units
           (cim2_properties : properties_t) (global_attributes : dict value)
           (time_coords : option TimeCoords) : outcome Units :=
  match PyDict.get "parent_time_units" global_attributes with
  | None => Units_of time_coords
  | Some (VStr s) =>
      if String.eqb s "no parent" then Units_of time_coords
      else
        match UnitsPattern.re_match s with
        | Some (g1, g2) => cf_Units g1 (VStr g2)
        | None =>
            cal <- or_raise (KeyError "calendar") (PyDict.get "calendar" cim2_properties) ;;
            cf_Units s cal
        end
  | Some _ => Raised TypeError []
  end.

Definition is_text (v : value) : bool :=
  match v with VStr _ => true | _ => false end.

Definition is_float (v : value) : bool :=
  match v with VFloat _ => true | _ => false end.

Definition set_branch_time_in_parent
           (parent_time_units : Units) (global_attributes : dict value)
           (cim2_properties : properties_t) : outcome properties_t :=
  match PyDict.get "branch_time_in_parent" global_attributes with
  | None => Returned cim2_properties
  | Some v =>
      number <- (if is_text v
                 then float_of_replaced v
                        "Debug: Failed while converting to float:{branch_time_in_parent}"
                 else Returned v) ;;
      x <- cf_date_string number parent_time_units ;;
      Returned (PyDict.set "branch_time_in_parent" (VStr x) cim2_properties)
  end.

Definition set_branch_time_in_child
           (global_attributes : dict value) (time_coords : option TimeCoords)
           (cim2_properties : properties_t) : outcome properties_t :=
  match PyDict.get "branch_time_in_child" global_attributes with
  | None => Returned cim2_properties
  | Some v =>
      number <- (if negb (is_float v)
                 then float_of_replaced v
                        "Debug: Failed while converting to float:{branch_time_in_child}"
                 else Returned v) ;;
      units <- Units_of time_coords ;;
      x <- cf_date_string number units ;;
      Returned (PyDict.set "branch_time_in_child" (VStr x) cim2_properties)
  end.

Definition set_activity_id
           (global_attributes : dict value) (cim2_properties : properties_t)
  : outcome properties_t :=
  match PyDict.get "activity_id" global_attributes with
  | None => Returned cim2_properties
  | Some (VStr s) =>
      Returned (PyDict.set "activity_id" (VTuple (PyStr.sorted (PyStr.split s)))
                           cim2_properties)
  | Some _ => Raised (AttributeError "split") []
  end.

Definition _parse_cmip6_properties
           (cim2_properties : properties_t) (global_attributes : dict value)
           (time_coords : option TimeCoords) : outcome properties_t :=
  label <- label_text "parent_variant_label" "none" global_attributes ;;
  let cim2_properties := PyDict.update (parent_indices label) cim2_properties in
  parent_time_units <-
    resolve_parent_time_units cim2_properties global_attributes time_coords ;;
  cim2_properties <-
    set_branch_time_in_parent parent_time_units global_attributes cim2_properties ;;
  cim2_properties <-
    set_branch_time_in_child global_attributes time_coords cim2_properties ;;
  set_activity_id global_attributes cim2_properties.

(** *** One field *)

(** The loop over [simple_mapping.items()]. *)
Definition map_simple (simple_mapping : dict string) (global_attributes : dict value)
           (cim2_properties : properties_t) : properties_t :=
  fold_left
    (fun acc entry =>
       match PyDict.get (fst entry) global_attributes with
       | Some v => PyDict.set (snd entry) v acc
       | None => acc
       end)
    simple_mapping cim2_properties.

Definition parse_result : Type :=
  (option identifier_t * option properties_t * option (list datetime))%type.

Definition parse (cf_field : Field) : outcome parse_result :=
  let global_attributes := properties cf_field in
  let freq := PyDict.get "frequency" global_attributes in
  time_coords <-
    logging "Debug: Failed while parsing: {'time_coords'}"
      (if equals_text freq "fx" then Returned None
       else tc <- dim cf_field ;; Returned (Some tc)) ;;
  dates <-
    logging "Debug: Failed while parsing:{'start and end dates'}"
      (_get_field_start_end_dates time_coords) ;;
  match dates with
  | [] => Returned (None, None, None)
  | _ :: _ =>
      let mip_era := _get_mip_era global_attributes in
      let cim2_properties : properties_t := [] in
      simple_mapping <-
        (if era_is mip_era CMIP6 then Returned CMIP6_TO_CIM2
         else if era_is mip_era CMIP5 then Returned CMIP5_TO_CIM2
         else Raised (UnboundLocalError "simple_mapping") []) ;;
      let cim2_properties := map_simple simple_mapping global_attributes cim2_properties in
      version <- or_raise IndexError
                   (PyStr.index_from_end 2 (PyStr.split_on "/" (fpath cf_field))) ;;
      let cim2_properties := PyDict.set "dataset_versions" (VStr version) cim2_properties in
      let cim2_properties := PyDict.set "filenames" (VStr (fpath cf_field)) cim2_properties in
      cal <- logging "Debug: Failed while parsing:{'calendar'}"
               (Returned (_get_calendar time_coords)) ;;
      let cim2_properties := PyDict.set "calendar" (VStr cal) cim2_properties in
      cim2_properties <-
        (if era_is mip_era CMIP6
         then _parse_cmip6_properties cim2_properties global_attributes time_coords
         else if era_is mip_era CMIP5
         then _parse_cmip5_properties cim2_properties global_attributes time_coords
         else Returned cim2_properties) ;;
      Returned (Some (_get_simulation_id cim2_properties), Some cim2_properties, Some dates)
  end.

(** *** All fields *)

(** What the generator does, in order: it yields a parsed field or closes
    a file. *)
Inductive event : Type :=
| Yield (cf_field : Field) (identifier : option identifier_t)
        (cim2_properties : option properties_t) (dates : option (list datetime))
| CloseOneFile.

(** [if identifier:]. *)
Definition truthy (identifier : option identifier_t) : bool :=
  match identifier with
  | Some (_ :: _) => true
  | _ => false
  end.

Definition yielded (cf_field : Field) (r : parse_result) : list event :=
  let '(identifier, cim2_properties, dates) := r in
  if truthy identifier then [Yield cf_field identifier cim2_properties dates] else [].

(** The inner loop: the events of the fields of one file, and the
    exception that ended the loop if there was one. *)
Fixpoint parse_fields (cf_fields : list Field) : list event * option (exn * list string) :=
  match cf_fields with
  | [] => ([], None)
  | cf_field :: rest =>
      match logging (String.append "Debug: Failed while parsing: " (fpath cf_field))
                    (parse cf_field) with
      | Raised e log => ([], Some (e, log))
      | Returned r =>
          let (evs, err) := parse_fields rest in
          (yielded cf_field r ++ evs, err)
      end
  end.

(** [yield_parsed], applied to what [yield_cf_files(targets)] produces. *)
Fixpoint yield_parsed (files : list (list Field)) : list event * option (exn * list string) :=
  match files with
  | [] => ([], None)
  | cf_fields :: rest =>
      match parse_fields cf_fields with
      | (evs, Some err) => (evs, Some err)
      | (evs, None) =>
          let (evs', err) := yield_parsed rest in
          (evs ++ CloseOneFile :: evs', err)
      end
  end.

End Parser.

Arguments isreftime {Units datetime} _.
Arguments tc_Units {Units datetime} _.
Arguments ndim {Units datetime} _.
Arguments points {Units datetime} _.
Arguments bounds {Units datetime} _.
Arguments calendar {Units datetime} _.
Arguments size {Units datetime} tc.
Arguments has_bounds {Units datetime} tc.
Arguments properties {Units datetime} _.
Arguments dim_T {Units datetime} _.
Arguments fpath {Units datetime} _.
Arguments flat {datetime} rows.
Arguments _get_field_start_end_dates {Units datetime} time_coords.
Arguments _get_calendar {Units datetime} time_coords.
Arguments Units_of {Units datetime} time_coords.
Arguments truthy identifier : clear implicits.

(** ** A small instance

    Units are kept as their text, date-times as day numbers; the conversion
    of a branch time prints nothing but the units.  The tables hold three
    entries of the real ones. *)

Module Sample.

Definition Units : Type := string.
Definition datetime : Type := Z.

Definition cf_Units (units : string) (cal : value) : outcome Units := Returned units.
Definition cf_date_string (x : value) (u : Units) : outcome string :=
  Returned (String.append "date in " u).

Definition CMIP6 : string := "CMIP6".
Definition CMIP5 : string := "CMIP5".
Definition CMIP6_TO_CIM2 : dict string :=
  [("experiment_id", "experiment_id"); ("institution_id", "institution_id");
   ("mip_era", "mip_era")].
Definition CMIP5_TO_CIM2 : dict string :=
  [("experiment_id", "experiment_id"); ("forcing", "forcing");
   ("project_id", "mip_era")].

Definition parse :=
  parse Units datetime cf_Units cf_date_string CMIP6 CMIP5 CMIP6_TO_CIM2 CMIP5_TO_CIM2.

Definition axis (pts : list Z) (bnds : option (list (Z * Z))) : TimeCoords Units datetime :=
  {| isreftime := true; tc_Units := "days since 1850-01-01"; ndim := 1;
     points := pts; bounds := bnds; calendar := None |}.

Definition field (attrs : dict value) (tc : option (TimeCoords Units datetime))
  : Field Units datetime :=
  {| properties := attrs; dim_T := tc; fpath := "/data/CMIP/v20190101/tas.nc" |}.

End Sample.

(** ** More of the small instance *)

Module Sample2.

Definition cmip6 :=
  _parse_cmip6_properties Sample.Units Sample.datetime Sample.cf_Units Sample.cf_date_string.
Definition cmip5 := _parse_cmip5_properties Sample.Units Sample.datetime.
Definition events :=
  yield_parsed Sample.Units Sample.datetime Sample.cf_Units Sample.cf_date_string
    Sample.CMIP6 Sample.CMIP5 Sample.CMIP6_TO_CIM2 Sample.CMIP5_TO_CIM2.
Definition events_of_fields :=
  parse_fields Sample.Units Sample.datetime Sample.cf_Units Sample.cf_date_string
    Sample.CMIP6 Sample.CMIP5 Sample.CMIP6_TO_CIM2 Sample.CMIP5_TO_CIM2.

Definition field_at (path : string) (attrs : dict value)
           (tc : option (TimeCoords Sample.Units Sample.datetime))
  : Field Sample.Units Sample.datetime :=
  {| properties := attrs; dim_T := tc; fpath := path |}.

(** Two files of one CMIP6 simulation, a file without a detectable era and
    a file of fixed fields. *)
Definition attrs_a : dict value :=
  [("mip_era", VStr "CMIP6"); ("experiment_id", VStr "historical");
   ("activity_id", VStr "CMIP")].
Definition field_a : Field Sample.Units Sample.datetime :=
  field_at "/data/v1/tas_1850.nc" attrs_a (Some (Sample.axis [10%Z; 20%Z] None)).
Definition field_b : Field Sample.Units Sample.datetime :=
  field_at "/data/v2/tas_1860.nc" attrs_a (Some (Sample.axis [30%Z] None)).
Definition field_bad : Field Sample.Units Sample.datetime :=
  field_at "/data/v1/bad.nc" [] (Some (Sample.axis [10%Z] None)).
Definition field_fx : Field Sample.Units Sample.datetime :=
  field_at "/data/v1/orog.nc" [("frequency", VStr "fx")] None.

Definition id_a : identifier_t :=
  [("experiment_id", VStr "historical"); ("mip_era", VStr "CMIP6");
   ("calendar", VStr "gregorian"); ("activity_id", VTuple ["CMIP"])].
Definition props_of (path version : string) : properties_t :=
  [("experiment_id", VStr "historical"); ("mip_era", VStr "CMIP6");
   ("dataset_versions", VStr version); ("filenames", VStr path);
   ("calendar", VStr "gregorian"); ("activity_id", VTuple ["CMIP"])].
Definition props_a : properties_t := props_of "/data/v1/tas_1850.nc" "v1".
Definition props_b : properties_t := props_of "/data/v2/tas_1860.nc" "v2".

Definition yield_a : event Sample.Units Sample.datetime :=
  Yield Sample.Units Sample.datetime field_a (Some id_a) (Some props_a) (Some [10%Z; 20%Z]).

(** An axis that is usable and has no cell, and one with two dimensions. *)
Definition empty_axis : TimeCoords Sample.Units Sample.datetime := Sample.axis [] None.
Definition plane_axis : TimeCoords Sample.Units Sample.datetime :=
  {| isreftime := true; tc_Units := "days since 1850-01-01"; ndim := 2;
     points := [10%Z]; bounds := None; calendar := None |}.

End Sample2.

(** ** The publication script

    [sh/publish.py] reports what [cdf2cim.publish()] returns: the paths that
    were published and, for the others, the path and the error.  The call
    itself belongs to the package; its result is the argument here, an
    error being given by its text. *)

Module Publish.

(** A call of [logger.log] or of [logger.log_warning]. *)
Inductive log_line : Type :=
| Log (msg : string)
| LogWarning (msg : string).

(** [fpath.split("/")[-1]]. *)
Definition fname_of (fpath : string) : outcome string :=
  or_raise IndexError (PyStr.index_from_end 1 (PyStr.split_on "/" fpath)).

(** The loop over [failures]: the lines written, and the exception that
    ended the loop if there was one. *)
Fixpoint report_failures (failures : list (string * string))
  : list log_line * option exn :=
  match failures with
  | [] => ([], None)
  | (fpath, err) :: rest =>
      match fname_of fpath with
      | Raised e _ => ([], Some e)
      | Returned fname =>
          let (lines, stop) := report_failures rest in
          (LogWarning (String.append "Publication error: "
                         (String.append fname (String.append " :: " err))) :: lines,
           stop)
      end
  end.

(** The loop over [successes]. *)
Fixpoint report_successes (successes : list string) : list log_line * option exn :=
  match successes with
  | [] => ([], None)
  | fpath :: rest =>
      match fname_of fpath with
      | Raised e _ => ([], Some e)
      | Returned fname =>
          let (lines, stop) := report_successes rest in
          (Log (String.append "Publication success: " fname) :: lines, stop)
      end
  end.

(** [_main], given the pair that [cdf2cim.publish()] returned. *)
Definition _main (published : list string * list (string * string))
  : list log_line * option exn :=
  let (successes, failures) := published in
  match report_failures failures with
  | (lines, Some e) => (lines, Some e)
  | (lines, None) =>
      let (lines', stop) := report_successes successes in
      (lines ++ lines', stop)
  end.

End Publish.

(** ** The vocabulary of the statements *)

(** Two property sets that differ only in volatile keys: read side by side,
    item after item, every item is common to both or has a volatile key. *)
Inductive differ_only_in_volatile : properties_t -> properties_t -> Prop :=
| dv_end : differ_only_in_volatile [] []
| dv_common k v p q :
    differ_only_in_volatile p q ->
    differ_only_in_volatile ((k, v) :: p) ((k, v) :: q)
| dv_left k v p q :
    is_volatile k = true ->
    differ_only_in_volatile p q ->
    differ_only_in_volatile ((k, v) :: p) q
| dv_right k v p q :
    is_volatile k = true ->
    differ_only_in_volatile p q ->
    differ_only_in_volatile p ((k, v) :: q).

(** Every character of the text is in the class. *)
Fixpoint all_chars (p : ascii -> bool) (s : string) : bool :=
  match s with
  | EmptyString => true
  | String c s' => p c && all_chars p s'
  end.

(** The text is empty or starts with a character outside the class. *)
Definition starts_outside (p : ascii -> bool) (s : string) : bool :=
  match s with
  | EmptyString => true
  | String c _ => negb (p c)
  end.

(** Ascending order on text, by code points. *)
Definition le_text (a b : string) : Prop := String.leb a b = true.

(** The result of a [get] is text, or the key is absent. *)
Definition text_or_absent (v : option value) : bool :=
  match v with
  | Some (VStr _) | None => true
  | Some _ => false
  end.

(** The value of the item is the text N/A. *)
Definition is_na (kv : string * value) : bool := equals_text (Some (snd kv)) "N/A".

(** What the iterator of a dict raises when the dict was resized. *)
Definition size_changed : exn := RuntimeError "dictionary changed size during iteration".

(** The line logged when a branch_time_in_child cannot be made a float. *)
Definition child_msg : string :=
  "Debug: Failed while converting to float:{branch_time_in_child}".

(** The binary64 numbers nearest to 1.52 and equal to 150. *)
Definition float_1_52 : PyFloat.float := S754_finite false 6845471433603154 (-52).
Definition float_150 : PyFloat.float := S754_finite false 5277655813324800 (-45).

(** What the zip does to the four properties: the i-th name takes the
    integer of the i-th run of digits, and keeps what it had when there is
    no such run. *)
Definition parent_indices_set (label : string) (before after : properties_t) : Prop :=
  forall i name,
    nth_error parent_index_names i = Some name ->
    PyDict.get name after =
      match nth_error (PyStr.findall_digits label) i with
      | Some r => Some (VInt (PyStr.int_of_digits r))
      | None => PyDict.get name before
      end.

(** Two property sets with the same keys in the same order and the same
    value at every key that is not volatile. *)
Definition same_but_volatile (p q : properties_t) : Prop :=
  Forall2 (fun a b => fst a = fst b /\ (snd a = snd b \/ is_volatile (fst a) = true)) p q.

(** The characters of a text that are in the class, in order. *)
Fixpoint filter_chars (p : ascii -> bool) (s : string) : string :=
  match s with
  | EmptyString => EmptyString
  | String c s' => if p c then String c (filter_chars p s') else filter_chars p s'
  end.

(** The texts of a list, one after the other. *)
Definition concat_text (l : list string) : string :=
  fold_right String.append EmptyString l.

(** The character is not the separator of paths. *)
Definition not_slash (c : ascii) : bool := negb (Ascii.eqb c "/").

(** The seven properties that the CMIP6 enrichment writes. *)
Definition cmip6_written : list string :=
  parent_index_names ++ ["branch_time_in_parent"; "branch_time_in_child"; "activity_id"].

(** The event closes a file. *)
Definition is_close {Units datetime : Type} (e : event Units datetime) : bool :=
  match e with
  | CloseOneFile _ _ => true
  | Yield _ _ _ _ _ _ => false
  end.

(** The line that [yield_parsed] logs for a field whose parse raised. *)
Definition failed_msg (fpath : string) : string :=
  String.append "Debug: Failed while parsing: " fpath.

(** The property set of a field before the enrichment of its era: the
    simple mappings of [table], then the version, the path and the
    calendar. *)
Definition base_properties {Units datetime : Type} (cf_field : Field Units datetime)
           (table : dict string) (version : string) : properties_t :=
  PyDict.set "calendar" (VStr (_get_calendar (dim_T cf_field)))
    (PyDict.set "filenames" (VStr (fpath cf_field))
       (PyDict.set "dataset_versions" (VStr version)
          (map_simple table (properties cf_field) []))).

(** The keys that [parse] writes after the simple mappings. *)
Definition written_after_mapping : list string :=
  ["dataset_versions"; "filenames"; "calendar"] ++ cmip6_written.

(** From [p] to [q] the keys of [p] keep their places and new keys, all
    among [names], come after them. *)
Definition grows_by (names : list string) (p q : properties_t) : Prop :=
  exists rest, PyDict.keys q = PyDict.keys p ++ rest /\ incl rest names.

(** The axis is one that the parser takes dates from. *)
Definition usable {Units datetime : Type} (tc : TimeCoords Units datetime) : Prop :=
  isreftime tc = true /\ (ndim tc <= 1)%nat.

(** The character may stand in a calendar written in parentheses. *)
Definition in_parentheses (c : ascii) : bool :=
  UnitsPattern.inside c && negb (Ascii.eqb c "(").

(** The character is not a newline. *)
Definition on_the_line (c : ascii) : bool := negb (UnitsPattern.is_newline c).

(** The character is not an opening parenthesis. *)
Definition not_open (c : ascii) : bool := negb (Ascii.eqb c "(").

(** * Properties *)

(** ** Dicts *)

Section DictFacts.

Context {V : Type}.
Implicit Types (d : dict V) (k : string) (v : V).

Lemma get_set_same d k v : PyDict.get k (PyDict.set k v d) = Some v.
Proof.
  induction d as [|[k' v'] d IH]; simpl.
  - now rewrite String.eqb_refl.
  - destruct (String.eqb k k') eqn:E; simpl.
    + now rewrite String.eqb_refl.
    + now rewrite E.
Qed.

Lemma get_set_other d k k' v :
  k <> k' -> PyDict.get k' (PyDict.set k v d) = PyDict.get k' d.
Proof.
  intros Hne. induction d as [|[k0 v0] d IH]; simpl.
  - destruct (String.eqb_spec k' k); congruence.
  - destruct (String.eqb_spec k k0) as [->|Hk]; simpl.
    + destruct (String.eqb_spec k' k0); congruence.
    + now rewrite IH.
Qed.

Lemma get_none_not_in d k : ~ In k (PyDict.keys d) -> PyDict.get k d = None.
Proof.
  induction d as [|[k0 v0] d IH]; simpl; intros Hn; [reflexivity|].
  destruct (String.eqb_spec k k0) as [->|Hk]; [tauto|].
  apply IH. tauto.
Qed.

Lemma get_some_in d k v : PyDict.get k d = Some v -> In (k, v) d.
Proof.
  induction d as [|[k0 v0] d IH]; simpl; [discriminate|].
  destruct (String.eqb_spec k k0) as [->|Hk]; intros H.
  - left. congruence.
  - right. auto.
Qed.

Lemma in_get_some d k v : PyDict.wf d -> In (k, v) d -> PyDict.get k d = Some v.
Proof.
  unfold PyDict.wf.
  induction d as [|[k0 v0] d IH]; simpl; intros Hwf Hin; [tauto|].
  inversion Hwf as [|? ? Hnot Hwf']; subst.
  destruct Hin as [Heq|Hin].
  - inversion Heq; subst. now rewrite String.eqb_refl.
  - destruct (String.eqb_spec k k0) as [->|Hk]; [|auto].
    exfalso. apply Hnot. change k0 with (fst (k0, v)). now apply in_map.
Qed.

Lemma update_cons d k v pairs :
  PyDict.update ((k, v) :: pairs) d = PyDict.update pairs (PyDict.set k v d).
Proof. reflexivity. Qed.

Lemma get_update_other pairs : forall d k,
    ~ In k (PyDict.keys pairs) -> PyDict.get k (PyDict.update pairs d) = PyDict.get k d.
Proof.
  induction pairs as [|[k0 v0] pairs IH]; intros d k Hn; [reflexivity|].
  rewrite update_cons, IH by (simpl in Hn; tauto).
  apply get_set_other. simpl in Hn. tauto.
Qed.

(** After [d.update(pairs)] with pairwise distinct keys, a key reads as in
    [pairs] when it is there and as in [d] when it is not. *)
Lemma get_update pairs : forall d k,
    NoDup (PyDict.keys pairs) ->
    PyDict.get k (PyDict.update pairs d) =
      match PyDict.get k pairs with
      | Some v => Some v
      | None => PyDict.get k d
      end.
Proof.
  induction pairs as [|[k0 v0] pairs IH]; intros d k Hnd; [reflexivity|].
  simpl in Hnd. inversion Hnd as [|? ? Hnot Hnd']; subst.
  rewrite update_cons. simpl.
  destruct (String.eqb_spec k k0) as [->|Hk].
  - rewrite get_update_other by assumption. apply get_set_same.
  - rewrite IH by assumption.
    destruct (PyDict.get k pairs); [reflexivity|].
    apply get_set_other. congruence.
Qed.

Lemma del_shorter d k :
  In k (PyDict.keys d) -> S (List.length (PyDict.del k d)) = List.length d.
Proof.
  induction d as [|[k0 v0] d IH]; simpl; intros Hin; [tauto|].
  destruct (String.eqb_spec k k0) as [->|Hk]; [reflexivity|].
  simpl. f_equal. apply IH. destruct Hin; congruence.
Qed.

End DictFacts.

(** ** The simulation identifier *)

Lemma dv_refl p : differ_only_in_volatile p p.
Proof. induction p as [|[k v] p IH]; constructor; assumption. Qed.

Lemma dv_same_id p q :
  differ_only_in_volatile p q -> _get_simulation_id p = _get_simulation_id q.
Proof.
  unfold _get_simulation_id.
  induction 1 as [|k v p q _ IH|k v p q Hk _ IH|k v p q Hk _ IH]; simpl.
  - reflexivity.
  - now rewrite IH.
  - now rewrite Hk.
  - now rewrite Hk.
Qed.

Lemma dv_all_volatile q :
  _get_simulation_id q = [] -> differ_only_in_volatile [] q.
Proof.
  unfold _get_simulation_id.
  induction q as [|[k v] q IH]; simpl; intros H; [constructor|].
  destruct (is_volatile k) eqn:Hk; simpl in H; [|discriminate].
  apply dv_right; auto.
Qed.

(** The relation asks for nothing more than the identifier sees. *)
Lemma same_id_dv p : forall q,
    _get_simulation_id p = _get_simulation_id q -> differ_only_in_volatile p q.
Proof.
  induction p as [|[k v] p IHp]; intros q H.
  - apply dv_all_volatile. now rewrite <- H.
  - destruct (is_volatile k) eqn:Hk.
    + apply dv_left; [assumption|]. apply IHp.
      unfold _get_simulation_id in *. simpl in H. now rewrite Hk in H.
    + induction q as [|[k' v'] q IHq].
      * unfold _get_simulation_id in H. simpl in H. rewrite Hk in H. discriminate.
      * destruct (is_volatile k') eqn:Hk'.
        -- apply dv_right; [assumption|]. apply IHq.
           unfold _get_simulation_id in *. simpl in *. now rewrite Hk' in H.
        -- unfold _get_simulation_id in H. simpl in H. rewrite Hk, Hk' in H. simpl in H.
           inversion H; subst. apply dv_common. now apply IHp.
Qed.

(** Writing or deleting a volatile key is such a difference. *)
Lemma dv_set p k v :
  is_volatile k = true -> differ_only_in_volatile p (PyDict.set k v p).
Proof.
  intros Hk. induction p as [|[k0 v0] p IH]; simpl.
  - apply dv_right; [assumption|constructor].
  - destruct (String.eqb_spec k k0) as [->|Hne].
    + apply dv_left; [assumption|]. apply dv_right; [assumption|]. apply dv_refl.
    + now apply dv_common.
Qed.

Lemma dv_del p k :
  is_volatile k = true -> differ_only_in_volatile p (PyDict.del k p).
Proof.
  intros Hk. induction p as [|[k0 v0] p IH]; simpl.
  - constructor.
  - destruct (String.eqb_spec k k0) as [->|Hne].
    + apply dv_left; [assumption|]. apply dv_refl.
    + now apply dv_common.
Qed.

Lemma id_keys p :
  PyDict.keys (_get_simulation_id p) =
    filter (fun k => negb (is_volatile k)) (PyDict.keys p).
Proof.
  unfold _get_simulation_id, PyDict.keys.
  induction p as [|[k v] p IH]; simpl; [reflexivity|].
  destruct (is_volatile k); simpl; now rewrite IH.
Qed.

Lemma id_items p k v :
  PyDict.wf p ->
  In (k, v) (_get_simulation_id p) <-> PyDict.get k p = Some v /\ is_volatile k = false.
Proof.
  intros Hwf. unfold _get_simulation_id. rewrite filter_In. simpl.
  rewrite Bool.negb_true_iff. split; intros [H1 H2]; split; auto.
  - now apply in_get_some.
  - now apply get_some_in.
Qed.

(** Items with pairwise distinct keys are known by their keys, in order,
    and by the value at each key. *)
Lemma items_determined (l1 : list (string * value)) : forall l2,
    NoDup (PyDict.keys l1) -> NoDup (PyDict.keys l2) ->
    PyDict.keys l1 = PyDict.keys l2 ->
    (forall k v, In (k, v) l1 -> In (k, v) l2) ->
    l1 = l2.
Proof.
  unfold PyDict.keys.
  induction l1 as [|[k v1] l1 IH]; intros [|[k2 v2] l2] H1 H2 Hk Hin;
    simpl in *; try discriminate; [reflexivity|].
  inversion Hk; subst k2. inversion H1 as [|? ? Hn1 H1']; inversion H2 as [|? ? Hn2 H2']; subst.
  assert (v1 = v2).
  { destruct (Hin k v1 (or_introl eq_refl)) as [E|E]; [congruence|].
    exfalso. apply Hn2. change k with (fst (k, v1)). now apply in_map. }
  subst v2. f_equal. apply IH; auto.
  intros k' v' Hin'. destruct (Hin k' v' (or_intror Hin')) as [E|E]; [|assumption].
  inversion E; subst. exfalso. apply Hn1.
  change k' with (fst (k', v')). now apply in_map.
Qed.

Lemma same_values_same_id p q :
  PyDict.wf p -> PyDict.wf q ->
  filter (fun k => negb (is_volatile k)) (PyDict.keys p)
  = filter (fun k => negb (is_volatile k)) (PyDict.keys q) ->
  (forall k, is_volatile k = false -> PyDict.get k p = PyDict.get k q) ->
  _get_simulation_id p = _get_simulation_id q.
Proof.
  intros Hp Hq Hkeys Hval. apply items_determined.
  - rewrite id_keys. now apply NoDup_filter.
  - rewrite id_keys. now apply NoDup_filter.
  - now rewrite !id_keys.
  - intros k v Hin. apply (id_items p k v Hp) in Hin. destruct Hin as [Hg Hv].
    apply (id_items q k v Hq). split; [|assumption]. now rewrite <- Hval.
Qed.

Lemma id_nodup p : PyDict.wf p -> NoDup (_get_simulation_id p).
Proof.
  intros Hwf. apply (NoDup_map_inv fst). change (map fst (_get_simulation_id p))
    with (PyDict.keys (_get_simulation_id p)).
  rewrite id_keys. now apply NoDup_filter.
Qed.

Lemma same_values_permuted_id p q :
  PyDict.wf p -> PyDict.wf q ->
  (forall k, is_volatile k = false -> PyDict.get k p = PyDict.get k q) ->
  Permutation (_get_simulation_id p) (_get_simulation_id q).
Proof.
  intros Hp Hq Hval. apply NoDup_Permutation; try now apply id_nodup.
  intros [k v]. rewrite (id_items p k v Hp), (id_items q k v Hq).
  split; intros [Hg Hv]; split; try assumption.
  - now rewrite <- Hval.
  - now rewrite Hval.
Qed.

(** C6, as the code has it. The identifier holds exactly the items of the
    keys that are not volatile (contact, references, forcing, variant_info,
    dataset_versions, filenames), in the order in which the property set
    holds them; it is not sorted.  Two property sets that differ only in
    the volatile keys get the same items in their identifiers, and the
    same identifier when they hold the keys that are not volatile in the
    same order. *)
Theorem simulation_id_ignores_volatile_keys :
  (forall p q,
      PyDict.wf p -> PyDict.wf q ->
      filter (fun k => negb (is_volatile k)) (PyDict.keys p)
      = filter (fun k => negb (is_volatile k)) (PyDict.keys q) ->
      (forall k, ~ In k volatile_keys -> PyDict.get k p = PyDict.get k q) ->
      _get_simulation_id p = _get_simulation_id q)
  /\ (forall p q,
         PyDict.wf p -> PyDict.wf q ->
         (forall k, ~ In k volatile_keys -> PyDict.get k p = PyDict.get k q) ->
         Permutation (_get_simulation_id p) (_get_simulation_id q))
  /\ (forall p k v,
         PyDict.wf p ->
         (In (k, v) (_get_simulation_id p) <->
            PyDict.get k p = Some v /\ ~ In k volatile_keys))
  /\ (forall p,
         PyDict.keys (_get_simulation_id p) =
           filter (fun k => negb (is_volatile k)) (PyDict.keys p)).
Proof.
  assert (Hv : forall k, is_volatile k = false <-> ~ In k volatile_keys).
  { intros k. unfold is_volatile. rewrite <- Bool.not_true_iff_false, existsb_exists.
    split; intros H C; apply H.
    - exists k. split; [assumption|apply String.eqb_refl].
    - destruct C as [x [Hx Hxe]]. apply String.eqb_eq in Hxe. now subst. }
  split; [|split; [|split; [|exact id_keys]]].
  - intros p q Hp Hq Hkeys Hval. apply same_values_same_id; auto.
    intros k Hk. apply Hval. now apply Hv.
  - intros p q Hp Hq Hval. apply same_values_permuted_id; auto.
    intros k Hk. apply Hval. now apply Hv.
  - intros p k v Hwf. rewrite (id_items p k v Hwf). now rewrite Hv.
Qed.

(** ** Runs of characters *)

Lemma append_empty_r (s : string) : String.append s EmptyString = s.
Proof. induction s; simpl; congruence. Qed.

Lemma append_assoc (a b c : string) :
  String.append (String.append a b) c = String.append a (String.append b c).
Proof. induction a; simpl; congruence. Qed.

Section Runs.

Variable p : ascii -> bool.

Lemma runs_inside r : forall acc s,
    all_chars p r = true ->
    PyStr.runs p acc (String.append r s) = PyStr.runs p (String.append acc r) s.
Proof.
  induction r as [|c r IH]; intros acc s Hr; simpl.
  - now rewrite append_empty_r.
  - simpl in Hr. apply andb_prop in Hr. destruct Hr as [Hc Hr].
    rewrite Hc, IH by assumption. unfold PyStr.snoc. now rewrite append_assoc.
Qed.

Lemma runs_outside sep : forall s,
    all_chars (fun c => negb (p c)) sep = true ->
    PyStr.runs p EmptyString (String.append sep s) = PyStr.runs p EmptyString s.
Proof.
  induction sep as [|c sep IH]; intros s Hs; simpl; [reflexivity|].
  simpl in Hs. apply andb_prop in Hs. destruct Hs as [Hc Hs].
  apply Bool.negb_true_iff in Hc. rewrite Hc. simpl. now apply IH.
Qed.

Lemma runs_flush acc s :
  acc <> EmptyString -> starts_outside p s = true ->
  PyStr.runs p acc s = acc :: PyStr.runs p EmptyString s.
Proof.
  intros Hacc Hs. destruct s as [|c s]; simpl.
  - destruct acc; [congruence|reflexivity].
  - simpl in Hs. apply Bool.negb_true_iff in Hs. rewrite Hs.
    destruct acc; [congruence|reflexivity].
Qed.

(** A separator, then a run that cannot be made longer, then the rest: the
    run is the first one found and the search goes on in the rest. *)
Lemma runs_next sep r rest :
  all_chars (fun c => negb (p c)) sep = true ->
  all_chars p r = true -> r <> EmptyString ->
  starts_outside p rest = true ->
  PyStr.runs p EmptyString (String.append sep (String.append r rest))
  = r :: PyStr.runs p EmptyString rest.
Proof.
  intros Hsep Hr Hne Hrest.
  rewrite runs_outside by assumption.
  rewrite runs_inside by assumption. simpl.
  now apply runs_flush.
Qed.

Lemma runs_none sep :
  all_chars (fun c => negb (p c)) sep = true ->
  PyStr.runs p EmptyString sep = [].
Proof.
  intros Hsep. rewrite <- (append_empty_r sep).
  now rewrite runs_outside.
Qed.

End Runs.

(** ** Sorting text *)

Lemma ascii_compare_lt_trans a b c :
  Ascii.compare a b = Lt -> Ascii.compare b c = Lt -> Ascii.compare a c = Lt.
Proof.
  unfold Ascii.compare. rewrite !N.compare_lt_iff. lia.
Qed.

Lemma compare_lt_trans : forall a b c,
    String.compare a b = Lt -> String.compare b c = Lt -> String.compare a c = Lt.
Proof.
  induction a as [|x a IH]; intros [|y b] [|z c]; simpl; try congruence.
  destruct (Ascii.compare x y) eqn:Exy; try discriminate;
    destruct (Ascii.compare y z) eqn:Eyz; try discriminate; intros H1 H2.
  - apply Ascii.compare_eq_iff in Exy, Eyz. subst.
    assert (E : Ascii.compare z z = Eq) by (unfold Ascii.compare; apply N.compare_refl).
    rewrite E. eauto.
  - apply Ascii.compare_eq_iff in Exy. subst. now rewrite Eyz.
  - apply Ascii.compare_eq_iff in Eyz. subst. now rewrite Exy.
  - now rewrite (ascii_compare_lt_trans x y z).
Qed.

Lemma le_text_cases a b :
  le_text a b <-> a = b \/ String.compare a b = Lt.
Proof.
  unfold le_text, String.leb. split.
  - destruct (String.compare a b) eqn:E; intros H; try discriminate.
    + left. now apply String.compare_eq_iff.
    + now right.
  - intros [->|H].
    + assert (E : String.compare b b = Eq).
      { induction b as [|c b IH]; simpl; [reflexivity|].
        unfold Ascii.compare. now rewrite N.compare_refl. }
      now rewrite E.
    + now rewrite H.
Qed.

Lemma le_text_trans a b c : le_text a b -> le_text b c -> le_text a c.
Proof.
  rewrite !le_text_cases. intros [->|H1] [->|H2]; auto.
  right. eapply compare_lt_trans; eassumption.
Qed.

Lemma not_ltb_le x y : String.ltb x y = false -> le_text y x.
Proof.
  unfold String.ltb, le_text, String.leb. rewrite (String.compare_antisym x y).
  destruct (String.compare y x); simpl; congruence.
Qed.

Lemma ltb_le x y : String.ltb x y = true -> le_text x y.
Proof.
  unfold String.ltb, le_text, String.leb.
  destruct (String.compare x y); congruence.
Qed.

Lemma insert_sorted_perm x l : Permutation (x :: l) (PyStr.insert_sorted x l).
Proof.
  induction l as [|y l IH]; simpl; [apply Permutation_refl|].
  destruct (String.ltb x y); [apply Permutation_refl|].
  eapply perm_trans; [apply perm_swap|]. now apply perm_skip.
Qed.

Lemma insert_sorted_hd x l a :
  HdRel le_text a l -> le_text a x -> HdRel le_text a (PyStr.insert_sorted x l).
Proof.
  intros Hl Hx. destruct l as [|y l]; simpl.
  - now constructor.
  - destruct (String.ltb x y); constructor; [assumption|].
    now inversion Hl.
Qed.

Lemma insert_sorted_sorted x l :
  Sorted le_text l -> Sorted le_text (PyStr.insert_sorted x l).
Proof.
  induction 1 as [|y l Hs IH Hhd]; simpl.
  - repeat constructor.
  - destruct (String.ltb x y) eqn:E.
    + constructor; [now constructor|]. constructor. now apply ltb_le.
    + constructor; [assumption|].
      apply insert_sorted_hd; [assumption|]. now apply not_ltb_le.
Qed.

Lemma sorted_fold l : forall acc,
    Sorted le_text acc ->
    Sorted le_text (fold_left (fun a x => PyStr.insert_sorted x a) l acc)
    /\ Permutation (l ++ acc) (fold_left (fun a x => PyStr.insert_sorted x a) l acc).
Proof.
  induction l as [|x l IH]; intros acc Hacc; simpl.
  - split; [assumption|apply Permutation_refl].
  - destruct (IH (PyStr.insert_sorted x acc) (insert_sorted_sorted x acc Hacc)) as [Hs Hp].
    split; [assumption|].
    eapply perm_trans; [|exact Hp].
    eapply perm_trans; [apply Permutation_middle|].
    apply Permutation_app_head. apply insert_sorted_perm.
Qed.

Lemma sorted_is_sorted l : Sorted le_text (PyStr.sorted l).
Proof. apply (sorted_fold l []). constructor. Qed.

Lemma sorted_is_perm l : Permutation l (PyStr.sorted l).
Proof.
  unfold PyStr.sorted. destruct (sorted_fold l [] (Sorted_nil _)) as [_ Hp].
  now rewrite app_nil_r in Hp.
Qed.

(** A list of texts has one ascending arrangement only. *)
Lemma sorted_unique : forall l1 l2,
    Sorted le_text l1 -> Sorted le_text l2 -> Permutation l1 l2 -> l1 = l2.
Proof.
  assert (Htr : Relations_1.Transitive le_text) by (intros a b c; apply le_text_trans).
  induction l1 as [|x l1 IH]; intros l2 H1 H2 Hp.
  - apply Permutation_nil in Hp. now subst.
  - destruct l2 as [|y l2].
    + apply Permutation_sym, Permutation_nil in Hp. discriminate.
    + apply Sorted_StronglySorted in H1, H2; try assumption.
      inversion H1 as [|? ? Hs1 Hall1]; subst.
      inversion H2 as [|? ? Hs2 Hall2]; subst.
      assert (Hxy : x = y).
      { assert (Hx : In x (y :: l2)) by (eapply Permutation_in; [exact Hp|now left]).
        assert (Hy : In y (x :: l1))
          by (eapply Permutation_in; [apply Permutation_sym; exact Hp|now left]).
        destruct Hx as [->|Hx]; [reflexivity|].
        destruct Hy as [->|Hy]; [reflexivity|].
        rewrite Forall_forall in Hall1, Hall2.
        apply String.leb_antisym; [apply (Hall1 y Hy)|apply (Hall2 x Hx)]. }
      subst y. f_equal.
      apply IH; try now apply StronglySorted_Sorted.
      eapply Permutation_cons_inv. exact Hp.
Qed.

Lemma sorted_of_perm l1 l2 :
  Permutation l1 l2 -> PyStr.sorted l1 = PyStr.sorted l2.
Proof.
  intros Hp. apply sorted_unique; try apply sorted_is_sorted.
  eapply perm_trans; [apply Permutation_sym, sorted_is_perm|].
  eapply perm_trans; [exact Hp|apply sorted_is_perm].
Qed.

(** ** The pruning loop *)

Lemma prune_loop_changed used it d :
  List.length d <> used -> prune_loop used it d = Raised size_changed [].
Proof.
  intros Hne. apply Nat.eqb_neq in Hne.
  destruct it as [|[k v] it]; simpl; now rewrite Hne.
Qed.

(** The loop goes through when no value is the text N/A, and then leaves
    the dict as it was; the first deletion makes the next step raise. *)
Lemma prune_loop_spec it : forall d,
    (forall kv, In kv it -> In (fst kv) (PyDict.keys d)) ->
    prune_loop (List.length d) it d =
      if existsb is_na it then Raised size_changed [] else Returned d.
Proof.
  induction it as [|[k v] it IH]; intros d Hin.
  - simpl. now rewrite Nat.eqb_refl.
  - cbn -[equals_text PyDict.del]. rewrite Nat.eqb_refl.
    unfold is_na at 1. cbn -[equals_text PyDict.del].
    destruct (equals_text (Some v) "N/A") eqn:E; cbn -[equals_text PyDict.del].
    + apply prune_loop_changed.
      assert (Hk : In k (PyDict.keys d)) by (apply (Hin (k, v)); now left).
      apply del_shorter in Hk. lia.
    + apply IH. intros kv Hkv. apply Hin. now right.
Qed.

Lemma prune_whole d :
  prune_loop (List.length d) d d =
    if existsb is_na d then Raised size_changed [] else Returned d.
Proof.
  apply prune_loop_spec. intros kv Hkv. unfold PyDict.keys. now apply in_map.
Qed.

(** ** Lists, zips and single steps *)

Lemma last_default {A : Type} (l : list A) : forall a x y,
    last (a :: l) x = last (a :: l) y.
Proof.
  induction l as [|b l IH]; intros a x y; [reflexivity|].
  change (last (b :: l) x = last (b :: l) y). apply IH.
Qed.

Lemma nth_error_last {A : Type} (l : list A) : forall x,
    nth_error (x :: l) (List.length l) = Some (last l x).
Proof.
  induction l as [|y l IH]; intros x; [reflexivity|].
  change (nth_error (y :: l) (List.length l) = Some (last (y :: l) x)).
  rewrite IH. destruct l as [|a l]; [reflexivity|]. f_equal.
  change (last (a :: l) y = last (a :: l) x). apply last_default.
Qed.

Lemma item_first {A : Type} (x : A) l : item 0 (x :: l) = Some x.
Proof. reflexivity. Qed.

Lemma item_last {A : Type} (x : A) l : item (-1) (x :: l) = Some (last l x).
Proof.
  unfold item, PyStr.index_from_end. simpl.
  rewrite Nat.sub_0_r. apply nth_error_last.
Qed.

Lemma take_first {A : Type} (x : A) l : take [0%Z] (x :: l) = Returned [x].
Proof. reflexivity. Qed.

Lemma take_first_last {A : Type} (x : A) l :
  take [0%Z; (-1)%Z] (x :: l) = Returned [x; last l x].
Proof.
  unfold take. rewrite item_first, item_last. reflexivity.
Qed.

Lemma keys_combine_in {V : Type} (names : list string) : forall (vals : list V) k,
    In k (PyDict.keys (combine names vals)) -> In k names.
Proof.
  induction names as [|n names IH]; intros [|v vals] k; simpl; try tauto.
  intros [H|H]; [now left|right; eauto].
Qed.

Lemma keys_combine_nodup {V : Type} (names : list string) : forall (vals : list V),
    NoDup names -> NoDup (PyDict.keys (combine names vals)).
Proof.
  induction names as [|n names IH]; intros [|v vals] Hnd; simpl; try constructor.
  - inversion Hnd; subst. intros Hin. apply keys_combine_in in Hin. contradiction.
  - inversion Hnd; subst. now apply IH.
Qed.

Lemma get_combine {V : Type} (names : list string) : forall (vals : list V) i name,
    NoDup names -> nth_error names i = Some name ->
    PyDict.get name (combine names vals) = nth_error vals i.
Proof.
  induction names as [|n names IH]; intros vals i name Hnd Hi.
  - destruct i; discriminate.
  - inversion Hnd as [|? ? Hnot Hnd']; subst.
    destruct i as [|i]; simpl in Hi.
    + inversion Hi; subst. destruct vals as [|v vals]; simpl; [reflexivity|].
      now rewrite String.eqb_refl.
    + destruct vals as [|v vals]; simpl.
      * reflexivity.
      * destruct (String.eqb_spec name n) as [->|Hne].
        -- exfalso. apply Hnot. eapply nth_error_In. exact Hi.
        -- now apply IH.
Qed.

Lemma parent_index_names_nodup : NoDup parent_index_names.
Proof.
  unfold parent_index_names.
  repeat constructor; simpl; intuition discriminate.
Qed.

Lemma update_parent_indices label cim2_properties :
  parent_indices_set label cim2_properties
                     (PyDict.update (parent_indices label) cim2_properties).
Proof.
  intros i name Hi. unfold parent_indices.
  rewrite get_update by (apply keys_combine_nodup, parent_index_names_nodup).
  rewrite (get_combine _ _ i name parent_index_names_nodup Hi).
  rewrite nth_error_map.
  destruct (nth_error (PyStr.findall_digits label) i); reflexivity.
Qed.

Lemma parent_index_name_cases name :
  In name parent_index_names ->
  name <> "branch_time_in_parent" /\ name <> "branch_time_in_child"
  /\ name <> "activity_id" /\ name <> "calendar".
Proof.
  unfold parent_index_names. simpl.
  intros [H|[H|[H|[H|[]]]]]; subst; repeat split; discriminate.
Qed.

Lemma calendar_not_parent_index label (p : properties_t) :
  PyDict.get "calendar" (PyDict.update (parent_indices label) p) = PyDict.get "calendar" p.
Proof.
  apply get_update_other. intros Hin. unfold parent_indices in Hin.
  apply keys_combine_in in Hin.
  destruct (parent_index_name_cases _ Hin) as [_ [_ [_ Hc]]]. now apply Hc.
Qed.

Lemma calendar_in_identifier (p : properties_t) v :
  PyDict.get "calendar" p = Some v -> In ("calendar", v) (_get_simulation_id p).
Proof.
  intros H. unfold _get_simulation_id. apply filter_In. split.
  - now apply get_some_in.
  - reflexivity.
Qed.

Lemma activity_of_text ga (p : properties_t) s :
  PyDict.get "activity_id" ga = Some (VStr s) ->
  set_activity_id ga p
  = Returned (PyDict.set "activity_id" (VTuple (PyStr.sorted (PyStr.split s))) p).
Proof. intros H. unfold set_activity_id. now rewrite H. Qed.

Lemma activity_keeps ga (p p' : properties_t) k :
  set_activity_id ga p = Returned p' ->
  k <> "activity_id" -> PyDict.get k p' = PyDict.get k p.
Proof.
  unfold set_activity_id. intros H Hk.
  destruct (PyDict.get "activity_id" ga) as [[s| | |]|]; try discriminate; [|congruence].
  inversion H. apply get_set_other. congruence.
Qed.

Lemma float_of_replaced_1_5D2 msg :
  float_of_replaced (VStr "1.5D2") msg = Returned (VFloat float_1_52).
Proof. reflexivity. Qed.

Lemma era_is_none tag : era_is None tag = false.
Proof. reflexivity. Qed.

Section ParserFacts.

Variable Units : Type.
Variable datetime : Type.
Variable cf_Units : string -> value -> outcome Units.
Variable cf_date_string : value -> Units -> outcome string.
Variable CMIP6 CMIP5 : string.
Variable CMIP6_TO_CIM2 CMIP5_TO_CIM2 : dict string.

Local Abbreviation time_axis := (option (TimeCoords Units datetime)).
Local Abbreviation cmip5 := (_parse_cmip5_properties Units datetime).
Local Abbreviation cmip6 := (_parse_cmip6_properties Units datetime cf_Units cf_date_string).
Local Abbreviation branch_child := (set_branch_time_in_child Units datetime cf_date_string).
Local Abbreviation branch_parent := (set_branch_time_in_parent Units cf_date_string).
Local Abbreviation parse_field :=
  (parse Units datetime cf_Units cf_date_string CMIP6 CMIP5 CMIP6_TO_CIM2 CMIP5_TO_CIM2).
Local Abbreviation fields_events :=
  (parse_fields Units datetime cf_Units cf_date_string CMIP6 CMIP5 CMIP6_TO_CIM2 CMIP5_TO_CIM2).
Local Abbreviation files_events :=
  (yield_parsed Units datetime cf_Units cf_date_string CMIP6 CMIP5 CMIP6_TO_CIM2 CMIP5_TO_CIM2).

(** C3. The CMIP5 enrichment is meant to drop every property whose value is
    the text N/A, but it deletes from the dict that it is iterating over:
    as soon as one property holds N/A the loop raises and there is no
    final property set. *)
Theorem cmip5_pruning_raises :
  forall (cim2_properties : properties_t) (global_attributes : dict value)
         (time_coords : time_axis) (k : string),
    PyDict.get k cim2_properties = Some (VStr "N/A") ->
    cmip5 cim2_properties global_attributes time_coords = Raised size_changed [].
Proof.
  intros props ga tc k Hk. unfold _parse_cmip5_properties.
  rewrite prune_whole.
  assert (E : existsb is_na props = true).
  { apply existsb_exists. exists (k, VStr "N/A"). split; [|reflexivity].
    now apply get_some_in. }
  now rewrite E.
Qed.

(** Without such a value the pruning changes nothing. *)
Lemma cmip5_without_na cim2_properties global_attributes (time_coords : time_axis) label :
  existsb is_na cim2_properties = false ->
  label_text "parent_experiment_rip" "N/A" global_attributes = Returned label ->
  cmip5 cim2_properties global_attributes time_coords
  = Returned (PyDict.update (parent_indices label) cim2_properties).
Proof.
  intros Hna Hl. unfold _parse_cmip5_properties.
  rewrite prune_whole, Hna. simpl. now rewrite Hl.
Qed.

(** ** Branch times *)

(** The text 1.5D2 on its way: it loses its D and is read as the
    float 1.52; that number is then converted under the units of the child's
    time coordinate and the date is stored as text. *)
Theorem branch_time_in_child_drops_D :
  (forall (global_attributes : dict value) (tc : TimeCoords Units datetime)
          (cim2_properties : properties_t),
      PyDict.get "branch_time_in_child" global_attributes = Some (VStr "1.5D2") ->
      branch_child global_attributes (Some tc) cim2_properties
      = (x <- cf_date_string (VFloat float_1_52) (tc_Units tc) ;;
         Returned (PyDict.set "branch_time_in_child" (VStr x) cim2_properties)))
  /\ (forall (tc : TimeCoords Units datetime) (cim2_properties : properties_t),
        cmip6 cim2_properties [("branch_time_in_child", VStr "1.5D2")] (Some tc)
        = (x <- cf_date_string (VFloat float_1_52) (tc_Units tc) ;;
           Returned (PyDict.set "branch_time_in_child" (VStr x) cim2_properties)))
  /\ PyFloat.of_text (PyStr.remove_char "D" "1.5D2") = PyFloat.of_text "1.52".
Proof.
  split; [|split].
  - intros ga tc props H. unfold set_branch_time_in_child. rewrite H.
    reflexivity.
  - intros tc props. unfold _parse_cmip6_properties, set_branch_time_in_child.
    cbn -[float_of_replaced PyDict.set]. rewrite float_of_replaced_1_5D2.
    cbn -[PyDict.set].
    destruct (cf_date_string (VFloat float_1_52) (tc_Units tc)); reflexivity.
  - reflexivity.
Qed.

(** C5. A branch_time_in_child that is an integer is not coerced: the
    branch for values that are not floats calls the text method replace on
    it, which raises.  The sibling code for branch_time_in_parent tests for
    text instead and hands an integer to the conversion as it is. *)
Theorem branch_time_in_child_integer_raises :
  forall (cim2_properties : properties_t) (tc : TimeCoords Units datetime) (n : Z),
    cmip6 cim2_properties [("branch_time_in_child", VInt n)] (Some tc)
    = Raised (AttributeError "replace") [child_msg]
    /\ cmip6 cim2_properties [("branch_time_in_parent", VInt n)] (Some tc)
       = (x <- cf_date_string (VInt n) (tc_Units tc) ;;
          Returned (PyDict.set "branch_time_in_parent" (VStr x) cim2_properties)).
Proof.
  intros props tc n. split.
  - reflexivity.
  - unfold _parse_cmip6_properties. simpl.
    unfold set_branch_time_in_parent. simpl.
    destruct (cf_date_string (VInt n) (tc_Units tc)); reflexivity.
Qed.

(** ** Dates *)

(** C4, as the code has it. On a usable axis the range is built from the
    first and the last cell only.  Without bounds it holds the point of the
    one cell, or the points of the first and last cells.  With bounds it
    holds both bounds of each of these cells, so two or four date-times. *)
Theorem date_range_of_usable_axis :
  forall (tc : TimeCoords Units datetime) (p : datetime) (ps : list datetime),
    isreftime tc = true -> (ndim tc <= 1)%nat -> points tc = p :: ps ->
    (bounds tc = None ->
     _get_field_start_end_dates (Some tc)
     = Returned (match ps with [] => [p] | _ :: _ => [p; last ps p] end))
    /\ (forall b bs, bounds tc = Some (b :: bs) ->
        _get_field_start_end_dates (Some tc)
        = Returned (match ps with
                    | [] => [fst b; snd b]
                    | _ :: _ => [fst b; snd b; fst (last bs b); snd (last bs b)]
                    end)).
Proof.
  intros tc p ps Href Hdim Hpts.
  assert (Hd : (1 <? ndim tc)%nat = false) by (apply Nat.ltb_ge; lia).
  unfold _get_field_start_end_dates, size. rewrite Href, Hd, Hpts. simpl negb. simpl orb.
  split.
  - intros Hb. rewrite Hb. destruct ps as [|q ps].
    + reflexivity.
    + change (List.length (p :: q :: ps) =? 1)%nat with false.
      apply take_first_last.
  - intros b bs Hb. rewrite Hb. destruct ps as [|q ps].
    + reflexivity.
    + change (List.length (p :: q :: ps) =? 1)%nat with false.
      rewrite take_first_last. reflexivity.
Qed.

(** ** One field *)

(** Reading the T axis of a field: a field without one raises. *)
Lemma axis_read (cf_field : Field Units datetime) msg :
  dim_T cf_field <> None ->
  logging msg (tc <- dim Units datetime cf_field ;; Returned (Some tc))
  = Returned (dim_T cf_field).
Proof. unfold dim. destruct (dim_T cf_field); [reflexivity|congruence]. Qed.


Lemma dates_need_axis (time_coords : time_axis) d ds :
  _get_field_start_end_dates time_coords = Returned (d :: ds) -> time_coords <> None.
Proof. intros H ->. discriminate H. Qed.

Lemma usable_axis_dates (tc : TimeCoords Units datetime) p ps :
  isreftime tc = true -> (ndim tc <= 1)%nat -> points tc = p :: ps ->
  bounds tc = None \/ (exists b bs, bounds tc = Some (b :: bs)) ->
  exists d ds, _get_field_start_end_dates (Some tc) = Returned (d :: ds).
Proof.
  intros Href Hdim Hpts Hb.
  assert (Hd : (1 <? ndim tc)%nat = false) by (apply Nat.ltb_ge; lia).
  unfold _get_field_start_end_dates. rewrite Href, Hd. cbn [negb orb].
  destruct Hb as [Hb|[b [bs Hb]]]; rewrite Hb;
    destruct (size tc =? 1)%nat;
    rewrite ?take_first, ?take_first_last, ?Hpts;
    rewrite ?take_first, ?take_first_last; cbn [bind flat flat_map app];
    eexists; eexists; reflexivity.
Qed.

Lemma undetectable_era_unbound (cf_field : Field Units datetime) d ds :
  equals_text (PyDict.get "mip_era" (properties cf_field)) CMIP6 = false ->
  equals_text (PyDict.get "project_id" (properties cf_field)) CMIP5 = false ->
  equals_text (PyDict.get "frequency" (properties cf_field)) "fx" = false ->
  _get_field_start_end_dates (dim_T cf_field) = Returned (d :: ds) ->
  parse_field cf_field = Raised (UnboundLocalError "simple_mapping") [].
Proof.
  intros H6 H5 Hfx Hdates. unfold parse.
  rewrite Hfx. cbv iota. rewrite axis_read by (eapply dates_need_axis; exact Hdates).
  simpl. rewrite Hdates. simpl.
  unfold _get_mip_era. rewrite H6, H5. reflexivity.
Qed.

Lemma parse_fx (cf_field : Field Units datetime) :
  equals_text (PyDict.get "frequency" (properties cf_field)) "fx" = true ->
  parse_field cf_field = Returned (None, None, None).
Proof. intros Hfx. unfold parse. rewrite Hfx. reflexivity. Qed.

Lemma parse_unusable (cf_field : Field Units datetime) tc :
  dim_T cf_field = Some tc -> isreftime tc = false \/ (1 < ndim tc)%nat ->
  parse_field cf_field = Returned (None, None, None).
Proof.
  intros Htc Hbad. unfold parse.
  destruct (equals_text (PyDict.get "frequency" (properties cf_field)) "fx");
    [reflexivity|].
  rewrite axis_read by congruence. rewrite Htc.
  assert (Hd : _get_field_start_end_dates (Some tc) = Returned []).
  { unfold _get_field_start_end_dates. destruct Hbad as [Hr|Hn].
    - now rewrite Hr.
    - apply Nat.ltb_lt in Hn. rewrite Hn. now rewrite Bool.orb_true_r. }
  cbn [bind]. rewrite Hd. reflexivity.
Qed.

(** C2, as the code has it. When neither mip_era is the CMIP6 tag nor
    project_id the CMIP5 tag, a field whose frequency is not fx and whose
    time coordinate is usable and has cells is never parsed to a result:
    the parse raises, and no property set is produced.  A field whose
    frequency is fx, or whose time coordinate is not usable, is skipped
    with three times none before its era is looked at. *)
Theorem undetectable_era_raises :
  forall (cf_field : Field Units datetime),
    equals_text (PyDict.get "mip_era" (properties cf_field)) CMIP6 = false ->
    equals_text (PyDict.get "project_id" (properties cf_field)) CMIP5 = false ->
    (forall tc p ps,
        equals_text (PyDict.get "frequency" (properties cf_field)) "fx" = false ->
        dim_T cf_field = Some tc ->
        isreftime tc = true -> (ndim tc <= 1)%nat -> points tc = p :: ps ->
        bounds tc = None \/ (exists b bs, bounds tc = Some (b :: bs)) ->
        (exists e log, parse_field cf_field = Raised e log)
        /\ forall r, parse_field cf_field <> Returned r)
    /\ (equals_text (PyDict.get "frequency" (properties cf_field)) "fx" = true ->
        parse_field cf_field = Returned (None, None, None))
    /\ (forall tc,
          dim_T cf_field = Some tc -> isreftime tc = false \/ (1 < ndim tc)%nat ->
          parse_field cf_field = Returned (None, None, None)).
Proof.
  intros f H6 H5. split; [|split].
  - intros tc p ps Hfx Htc Href Hdim Hpts Hb.
    destruct (usable_axis_dates tc p ps Href Hdim Hpts Hb) as [d [ds Hd]].
    rewrite <- Htc in Hd.
    rewrite (undetectable_era_unbound f d ds H6 H5 Hfx Hd).
    split; [eauto|discriminate].
  - apply parse_fx.
  - apply parse_unusable.
Qed.




(** ** Parent indices *)

Lemma branch_parent_keeps units ga (p p' : properties_t) k :
  branch_parent units ga p = Returned p' ->
  k <> "branch_time_in_parent" -> PyDict.get k p' = PyDict.get k p.
Proof.
  unfold set_branch_time_in_parent. intros H Hk.
  destruct (PyDict.get "branch_time_in_parent" ga) as [v|]; [|congruence].
  destruct (if is_text v then _ else _) as [number|]; simpl in H; [|discriminate].
  destruct (cf_date_string number units) as [x|]; simpl in H; [|discriminate].
  inversion H. apply get_set_other. congruence.
Qed.

Lemma branch_child_keeps ga (tc : time_axis) (p p' : properties_t) k :
  branch_child ga tc p = Returned p' ->
  k <> "branch_time_in_child" -> PyDict.get k p' = PyDict.get k p.
Proof.
  unfold set_branch_time_in_child. intros H Hk.
  destruct (PyDict.get "branch_time_in_child" ga) as [v|]; [|congruence].
  destruct (if negb (is_float v) then _ else _) as [number|]; simpl in H; [|discriminate].
  destruct (Units_of tc) as [units|]; simpl in H; [|discriminate].
  destruct (cf_date_string number units) as [x|]; simpl in H; [|discriminate].
  inversion H. apply get_set_other. congruence.
Qed.

(** What the CMIP6 enrichment leaves of the update of the parent indices. *)
Lemma cmip6_returned (cim2_properties after : properties_t) ga (tc : time_axis) :
  cmip6 cim2_properties ga tc = Returned after ->
  exists label,
    label_text "parent_variant_label" "none" ga = Returned label
    /\ forall k,
        k <> "branch_time_in_parent" -> k <> "branch_time_in_child" -> k <> "activity_id" ->
        PyDict.get k after = PyDict.get k (PyDict.update (parent_indices label) cim2_properties).
Proof.
  unfold _parse_cmip6_properties. intros H.
  destruct (label_text "parent_variant_label" "none" ga) as [label|]; simpl in H;
    [|discriminate].
  exists label. split; [reflexivity|]. intros k Hp Hc Ha.
  destruct (resolve_parent_time_units _ _ _ _ _ _) as [units|]; simpl in H; [|discriminate].
  destruct (branch_parent units ga _) as [p1|] eqn:E1; simpl in H; [|discriminate].
  destruct (branch_child ga tc p1) as [p2|] eqn:E2; simpl in H; [|discriminate].
  rewrite (activity_keeps _ _ _ k H Ha).
  rewrite (branch_child_keeps _ _ _ _ k E2 Hc).
  apply (branch_parent_keeps _ _ _ _ k E1 Hp).
Qed.

(** C8. The label of the parent run (parent_experiment_rip or N/A for
    CMIP5, parent_variant_label or none for CMIP6) is cut into its maximal
    runs of digits, from left to right, and the runs are zipped, as
    integers, with the four parent indices; an index for which there is no
    run is left as it was.  The label r1i2p3 gives 1, 2, 3 and no
    parent_forcing_index. *)
Theorem parent_indices_from_digit_runs :
  (forall sep r rest,
      all_chars (fun c => negb (PyStr.is_digit c)) sep = true ->
      all_chars PyStr.is_digit r = true -> r <> EmptyString ->
      starts_outside PyStr.is_digit rest = true ->
      PyStr.findall_digits (String.append sep (String.append r rest))
      = r :: PyStr.findall_digits rest)
  /\ (forall sep,
        all_chars (fun c => negb (PyStr.is_digit c)) sep = true ->
        PyStr.findall_digits sep = [])
  /\ (forall cim2_properties global_attributes (time_coords : time_axis) label,
        existsb is_na cim2_properties = false ->
        label_text "parent_experiment_rip" "N/A" global_attributes = Returned label ->
        exists after,
          cmip5 cim2_properties global_attributes time_coords = Returned after
          /\ parent_indices_set label cim2_properties after)
  /\ (forall cim2_properties global_attributes (time_coords : time_axis) label after,
        label_text "parent_variant_label" "none" global_attributes = Returned label ->
        cmip6 cim2_properties global_attributes time_coords = Returned after ->
        parent_indices_set label cim2_properties after)
  /\ (forall (tc : TimeCoords Units datetime),
        cmip5 [] [("parent_experiment_rip", VStr "r1i2p3")] (Some tc)
        = Returned [("parent_realization_index", VInt 1);
                    ("parent_initialization_index", VInt 2);
                    ("parent_physics_index", VInt 3)]
        /\ cmip6 [] [("parent_variant_label", VStr "r1i2p3")] (Some tc)
           = Returned [("parent_realization_index", VInt 1);
                       ("parent_initialization_index", VInt 2);
                       ("parent_physics_index", VInt 3)]
        /\ cmip5 [] [] (Some tc) = Returned []
        /\ cmip6 [] [] (Some tc) = Returned []).
Proof.
  split; [intros; now apply runs_next|].
  split; [intros; now apply runs_none|].
  split; [|split].
  - intros props ga tc label Hna Hl.
    exists (PyDict.update (parent_indices label) props).
    split; [now apply cmip5_without_na|apply update_parent_indices].
  - intros props ga tc label after Hl H i name Hi.
    destruct (cmip6_returned _ _ _ _ H) as [label' [Hl' Hkeep]].
    assert (label' = label) by congruence. subst label'.
    destruct (parent_index_name_cases name) as [Hp [Hc [Ha _]]];
      [eapply nth_error_In; exact Hi|].
    rewrite (Hkeep name Hp Hc Ha). now apply update_parent_indices.
  - intros tc. repeat split; reflexivity.
Qed.

(** ** Activities *)

(** C9. An activity_id that is present is split at white space and stored
    as the tuple of its tokens in ascending order, so two labels with the
    same tokens in any order are stored as the same tuple. *)
Theorem activity_id_sorted_tokens :
  (forall cim2_properties global_attributes (time_coords : time_axis) after s,
      PyDict.get "activity_id" global_attributes = Some (VStr s) ->
      cmip6 cim2_properties global_attributes time_coords = Returned after ->
      PyDict.get "activity_id" after = Some (VTuple (PyStr.sorted (PyStr.split s))))
  /\ (forall cim2_properties (tc : TimeCoords Units datetime) s,
        cmip6 cim2_properties [("activity_id", VStr s)] (Some tc)
        = Returned (PyDict.set "activity_id" (VTuple (PyStr.sorted (PyStr.split s)))
                               cim2_properties))
  /\ (forall s,
        Sorted le_text (PyStr.sorted (PyStr.split s))
        /\ Permutation (PyStr.split s) (PyStr.sorted (PyStr.split s)))
  /\ (forall s1 s2,
        Permutation (PyStr.split s1) (PyStr.split s2) ->
        PyStr.sorted (PyStr.split s1) = PyStr.sorted (PyStr.split s2))
  /\ (forall sep token rest,
        all_chars PyStr.is_space sep = true ->
        all_chars (fun c => negb (PyStr.is_space c)) token = true ->
        token <> EmptyString ->
        starts_outside (fun c => negb (PyStr.is_space c)) rest = true ->
        PyStr.split (String.append sep (String.append token rest))
        = token :: PyStr.split rest)
  /\ (forall sep, all_chars PyStr.is_space sep = true -> PyStr.split sep = [])
  /\ PyStr.sorted (PyStr.split "ScenarioMIP CMIP") = ["CMIP"; "ScenarioMIP"]
  /\ PyStr.sorted (PyStr.split "CMIP ScenarioMIP") = ["CMIP"; "ScenarioMIP"].
Proof.
  assert (Hsp : forall sep, all_chars PyStr.is_space sep = true ->
                 all_chars (fun c => negb (negb (PyStr.is_space c))) sep = true).
  { induction sep as [|c sep IH]; simpl; [reflexivity|].
    intros H. apply andb_prop in H. destruct H as [Hc Hs].
    rewrite Hc. simpl. now apply IH. }
  split; [|split; [|split; [|split; [|split; [|split; [|split]]]]]].
  - intros props ga tc after s Hs H.
    unfold _parse_cmip6_properties in H.
    destruct (label_text "parent_variant_label" "none" ga) as [label|]; simpl in H;
      [|discriminate].
    destruct (resolve_parent_time_units _ _ _ _ _ _) as [units|]; simpl in H; [|discriminate].
    destruct (branch_parent units ga _) as [p1|]; simpl in H; [|discriminate].
    destruct (branch_child ga tc p1) as [p2|]; simpl in H; [|discriminate].
    rewrite (activity_of_text ga p2 s Hs) in H. inversion H. apply get_set_same.
  - reflexivity.
  - intros s. split; [apply sorted_is_sorted|apply sorted_is_perm].
  - intros s1 s2. apply sorted_of_perm.
  - intros sep token rest Hsep Ht Hne Hrest. unfold PyStr.split.
    apply runs_next; auto.
  - intros sep Hsep. unfold PyStr.split. apply runs_none. auto.
  - reflexivity.
  - reflexivity.
Qed.

(** ** The calendar and the identifier *)

Lemma cmip6_keeps_calendar (p after : properties_t) ga (tc : time_axis) :
  cmip6 p ga tc = Returned after -> PyDict.get "calendar" after = PyDict.get "calendar" p.
Proof.
  intros H. destruct (cmip6_returned _ _ _ _ H) as [label [_ Hkeep]].
  rewrite Hkeep by discriminate. apply calendar_not_parent_index.
Qed.

Lemma cmip5_keeps_calendar (p after : properties_t) ga (tc : time_axis) :
  cmip5 p ga tc = Returned after -> PyDict.get "calendar" after = PyDict.get "calendar" p.
Proof.
  unfold _parse_cmip5_properties. rewrite prune_whole. intros H.
  destruct (existsb is_na p); simpl in H; [discriminate|].
  destruct (label_text "parent_experiment_rip" "N/A" ga) as [label|]; simpl in H;
    [|discriminate].
  inversion H. apply calendar_not_parent_index.
Qed.

Lemma parse_populated (cf_field : Field Units datetime) identifier cim2_properties dates :
  parse_field cf_field = Returned (Some identifier, Some cim2_properties, Some dates) ->
  identifier = _get_simulation_id cim2_properties
  /\ PyDict.get "calendar" cim2_properties = Some (VStr (_get_calendar (dim_T cf_field))).
Proof.
  unfold parse.
  destruct (equals_text (PyDict.get "frequency" (properties cf_field)) "fx") eqn:Hfx.
  - simpl. discriminate.
  - unfold dim. destruct (dim_T cf_field) as [tc|] eqn:Htc;
      cbn [bind logging or_raise app]; [|discriminate].
    destruct (_get_field_start_end_dates (Some tc)) as [ds|e log];
      simpl; [|discriminate].
    destruct ds as [|d ds]; [discriminate|].
    intros H.
    destruct (if era_is _ CMIP6 then Returned CMIP6_TO_CIM2 else _) as [sm|]; simpl in H;
      [|discriminate].
    destruct (or_raise IndexError _) as [version|]; simpl in H; [|discriminate].
    match type of H with
    | bind ?m _ = _ => destruct m as [props|] eqn:Hen; simpl in H; [|discriminate]
    end.
    inversion H; subst. split; [reflexivity|].
    destruct (era_is _ CMIP6).
    + rewrite (cmip6_keeps_calendar _ _ _ _ Hen). apply get_set_same.
    + destruct (era_is _ CMIP5).
      * rewrite (cmip5_keeps_calendar _ _ _ _ Hen). apply get_set_same.
      * inversion Hen. apply get_set_same.
Qed.

Lemma populated_is_truthy (cf_field : Field Units datetime) identifier cim2_properties dates :
  parse_field cf_field = Returned (Some identifier, Some cim2_properties, Some dates) ->
  truthy (Some identifier) = true.
Proof.
  intros H. destruct (parse_populated _ _ _ _ H) as [Hid Hcal].
  apply calendar_in_identifier in Hcal. rewrite <- Hid in Hcal.
  destruct identifier; [contradiction|reflexivity].
Qed.

Lemma parse_fields_yields cf_fields : forall evs,
    fields_events cf_fields = (evs, None) ->
    forall cf_field identifier cim2_properties dates,
      In cf_field cf_fields ->
      parse_field cf_field = Returned (Some identifier, Some cim2_properties, Some dates) ->
      In (Yield Units datetime cf_field (Some identifier) (Some cim2_properties) (Some dates)) evs.
Proof.
  induction cf_fields as [|f0 rest IH]; intros evs Hev f id props dates Hin Hp.
  - contradiction.
  - simpl in Hev.
    destruct (parse_field f0) as [r|e log] eqn:E0; simpl in Hev; [|discriminate].
    destruct (fields_events rest) as [evs' err] eqn:Er.
    inversion Hev; subst. apply in_or_app.
    destruct Hin as [->|Hin].
    + left. rewrite Hp in E0. inversion E0; subst.
      unfold yielded. rewrite (populated_is_truthy _ _ _ _ Hp). now left.
    + right. eapply IH; eauto.
Qed.

Lemma yield_parsed_yields files : forall evs,
    files_events files = (evs, None) ->
    forall cf_fields cf_field identifier cim2_properties dates,
      In cf_fields files -> In cf_field cf_fields ->
      parse_field cf_field = Returned (Some identifier, Some cim2_properties, Some dates) ->
      In (Yield Units datetime cf_field (Some identifier) (Some cim2_properties) (Some dates)) evs.
Proof.
  induction files as [|fs rest IH]; intros evs Hev cf_fields f id props dates Hfs Hin Hp.
  - contradiction.
  - simpl in Hev.
    destruct (fields_events fs) as [evs0 [err0|]] eqn:E0; [discriminate|].
    destruct (files_events rest) as [evs' err] eqn:Er.
    inversion Hev; subst. apply in_or_app.
    destruct Hfs as [->|Hfs].
    + left. eapply parse_fields_yields; eauto.
    + right. right. eapply IH; eauto.
Qed.

(** C10. A populated result always has the property calendar, which is the
    calendar of the time coordinate or gregorian when it has none; calendar
    is not volatile, so the identifier is never empty, and the test of the
    identifier in yield_parsed lets every such field through. *)
Theorem populated_result_has_calendar :
  (forall (cf_field : Field Units datetime) identifier cim2_properties dates,
      parse_field cf_field = Returned (Some identifier, Some cim2_properties, Some dates) ->
      PyDict.get "calendar" cim2_properties = Some (VStr (_get_calendar (dim_T cf_field)))
      /\ In ("calendar", VStr (_get_calendar (dim_T cf_field))) identifier
      /\ identifier <> []
      /\ yielded Units datetime cf_field (Some identifier, Some cim2_properties, Some dates)
         = [Yield Units datetime cf_field (Some identifier) (Some cim2_properties) (Some dates)])
  /\ (forall (tc : TimeCoords Units datetime),
        calendar tc = None -> _get_calendar (Some tc) = "gregorian")
  /\ ~ In "calendar" volatile_keys
  /\ (forall files evs cf_fields cf_field identifier cim2_properties dates,
        files_events files = (evs, None) ->
        In cf_fields files -> In cf_field cf_fields ->
        parse_field cf_field = Returned (Some identifier, Some cim2_properties, Some dates) ->
        In (Yield Units datetime cf_field (Some identifier) (Some cim2_properties) (Some dates))
           evs).
Proof.
  split; [|split; [|split]].
  - intros f id props dates H.
    pose proof (populated_is_truthy _ _ _ _ H) as Ht.
    destruct (parse_populated _ _ _ _ H) as [Hid Hcal].
    split; [assumption|]. split; [|split].
    + rewrite Hid. now apply calendar_in_identifier.
    + destruct id; [discriminate|discriminate].
    + unfold yielded. now rewrite Ht.
  - intros tc H. unfold _get_calendar. now rewrite H.
  - unfold volatile_keys. simpl. intuition discriminate.
  - intros files evs fs f id props dates Hev Hfs Hin Hp.
    eapply yield_parsed_yields; eauto.
Qed.

End ParserFacts.

(** ** The statements on the small instance *)

Lemma float_constants :
  PyFloat.of_text "1.52" = Some float_1_52
  /\ PyFloat.of_text "150.0" = Some float_150
  /\ PyFloat.of_text "1.5e2" = Some float_150
  /\ SFcompare float_1_52 float_150 = Some Lt.
Proof. repeat split; reflexivity. Qed.

(** C1. For the text 1.5D2 the enrichment does not convert 150.0: it drops
    the D and reads the number 1.52, which is another float; a conversion
    that tells 150.0 from the other numbers is handed that other number. *)
Lemma branch_time_1_5D2_is_not_150 :
  float_of_replaced (VStr "1.5D2") child_msg = Returned (VFloat float_1_52)
  /\ float_1_52 <> float_150
  /\ ~ (forall cf_date_string : value -> Sample.Units -> outcome string,
           _parse_cmip6_properties Sample.Units Sample.datetime Sample.cf_Units cf_date_string
             [] [("branch_time_in_child", VStr "1.5D2")] (Some (Sample.axis [10%Z] None))
           = (x <- cf_date_string (VFloat float_150) "days since 1850-01-01" ;;
              Returned [("branch_time_in_child", VStr x)])).
Proof.
  split; [reflexivity|]. split; [discriminate|].
  intros H.
  specialize (H (fun v _ =>
                   match v with
                   | VFloat x => if SFeqb x float_150 then Returned "150.0"
                                 else Returned "another number"
                   | _ => Returned "not a float"
                   end)).
  vm_compute in H. discriminate H.
Qed.

(** C2, counterexample. A field of no detectable era whose frequency is fx
    is not refused: the parse returns three times none.  And where the
    parse does fail, for such a field with dates, what is raised is the
    error of a name that was never bound, not a condition that names the
    era. *)
Lemma undetectable_era_without_dates_is_skipped :
  _get_mip_era Sample.CMIP6 Sample.CMIP5 [("frequency", VStr "fx")] = None
  /\ Sample.parse (Sample.field [("frequency", VStr "fx")] None)
     = Returned (None, None, None)
  /\ _get_mip_era Sample.CMIP6 Sample.CMIP5 [("institution_id", VStr "IPSL")] = None
  /\ Sample.parse (Sample.field [("institution_id", VStr "IPSL")]
                                (Some (Sample.axis [10%Z; 20%Z] None)))
     = Raised (UnboundLocalError "simple_mapping") [].
Proof. repeat split; reflexivity. Qed.

Lemma undetectable_era_raises_witness :
  equals_text (PyDict.get "mip_era" [("institution_id", VStr "IPSL")]) Sample.CMIP6 = false
  /\ forall r,
      Sample.parse (Sample.field [("institution_id", VStr "IPSL")]
                                 (Some (Sample.axis [10%Z; 20%Z] None)))
      <> Returned r.
Proof.
  split; [reflexivity|].
  apply (proj2 (proj1 (undetectable_era_raises Sample.Units Sample.datetime Sample.cf_Units
                         Sample.cf_date_string Sample.CMIP6 Sample.CMIP5
                         Sample.CMIP6_TO_CIM2 Sample.CMIP5_TO_CIM2
                         (Sample.field [("institution_id", VStr "IPSL")]
                                       (Some (Sample.axis [10%Z; 20%Z] None)))
                         eq_refl eq_refl)
                      (Sample.axis [10%Z; 20%Z] None) 10%Z [20%Z]
                      eq_refl eq_refl eq_refl (le_n 1) eq_refl (or_introl eq_refl))).
Defined.


Lemma cmip5_pruning_raises_witness :
  PyDict.get "forcing" [("forcing", VStr "N/A"); ("calendar", VStr "gregorian")]
  = Some (VStr "N/A")
  /\ _parse_cmip5_properties Sample.Units Sample.datetime
       [("forcing", VStr "N/A"); ("calendar", VStr "gregorian")]
       [("parent_experiment_rip", VStr "r1i2p3")] (Some (Sample.axis [10%Z] None))
     = Raised size_changed [].
Proof.
  split; [reflexivity|].
  apply (cmip5_pruning_raises Sample.Units Sample.datetime
           [("forcing", VStr "N/A"); ("calendar", VStr "gregorian")]
           [("parent_experiment_rip", VStr "r1i2p3")] (Some (Sample.axis [10%Z] None))
           "forcing").
  reflexivity.
Defined.

(** The same through [parse]: a CMIP5 file whose forcing is N/A. *)
Lemma cmip5_file_with_na_raises :
  Sample.parse (Sample.field [("project_id", VStr "CMIP5"); ("forcing", VStr "N/A")]
                             (Some (Sample.axis [10%Z] None)))
  = Raised size_changed [].
Proof. reflexivity. Qed.

(** The same through [parse], for a CMIP6 file whose branch_time_in_child
    is the integer 0; the branch_time_in_parent of the same kind goes
    through. *)
Lemma cmip6_file_with_integer_branch_time :
  Sample.parse (Sample.field [("mip_era", VStr "CMIP6"); ("branch_time_in_child", VInt 0)]
                             (Some (Sample.axis [10%Z] None)))
  = Raised (AttributeError "replace") [child_msg]
  /\ Sample.parse (Sample.field [("mip_era", VStr "CMIP6"); ("branch_time_in_parent", VInt 0)]
                                (Some (Sample.axis [10%Z] None)))
     = Returned
         (Some [("mip_era", VStr "CMIP6"); ("calendar", VStr "gregorian");
                ("branch_time_in_parent", VStr "date in days since 1850-01-01")],
          Some [("mip_era", VStr "CMIP6"); ("dataset_versions", VStr "v20190101");
                ("filenames", VStr "/data/CMIP/v20190101/tas.nc");
                ("calendar", VStr "gregorian");
                ("branch_time_in_parent", VStr "date in days since 1850-01-01")],
          Some [10%Z]).
Proof. split; reflexivity. Qed.

(** C4, counterexample. With bounds an axis of one cell gives two dates and
    an axis of three cells gives four. *)
Lemma date_range_with_bounds :
  _get_field_start_end_dates (Some (Sample.axis [10%Z] (Some [(5%Z, 15%Z)])))
  = Returned [5%Z; 15%Z]
  /\ _get_field_start_end_dates
       (Some (Sample.axis [10%Z; 20%Z; 30%Z] (Some [(5%Z, 15%Z); (15%Z, 25%Z); (25%Z, 35%Z)])))
     = Returned [5%Z; 15%Z; 25%Z; 35%Z].
Proof. split; reflexivity. Qed.

Lemma date_range_of_usable_axis_witness :
  _get_field_start_end_dates (Some (Sample.axis [10%Z; 20%Z; 30%Z] None))
  = Returned [10%Z; 30%Z]
  /\ _get_field_start_end_dates
       (Some (Sample.axis [10%Z; 20%Z; 30%Z] (Some [(5%Z, 15%Z); (15%Z, 25%Z); (25%Z, 35%Z)])))
     = Returned [5%Z; 15%Z; 25%Z; 35%Z].
Proof.
  split.
  - apply (proj1 (date_range_of_usable_axis Sample.Units Sample.datetime
                    (Sample.axis [10%Z; 20%Z; 30%Z] None) 10%Z [20%Z; 30%Z]
                    eq_refl (le_n 1) eq_refl)).
    reflexivity.
  - apply (proj2 (date_range_of_usable_axis Sample.Units Sample.datetime
                    (Sample.axis [10%Z; 20%Z; 30%Z]
                                 (Some [(5%Z, 15%Z); (15%Z, 25%Z); (25%Z, 35%Z)]))
                    10%Z [20%Z; 30%Z] eq_refl (le_n 1) eq_refl)
                 (5%Z, 15%Z) [(15%Z, 25%Z); (25%Z, 35%Z)]).
    reflexivity.
Defined.

(** C6, counterexample. The same properties put in another order give
    another identifier, though the two property sets agree at every key and
    neither holds a volatile key. *)
Lemma same_content_in_another_order :
  (forall k,
      PyDict.get k [("experiment_id", VStr "historical"); ("calendar", VStr "noleap")]
      = PyDict.get k [("calendar", VStr "noleap"); ("experiment_id", VStr "historical")])
  /\ _get_simulation_id [("experiment_id", VStr "historical"); ("calendar", VStr "noleap")]
     <> _get_simulation_id [("calendar", VStr "noleap"); ("experiment_id", VStr "historical")].
Proof.
  split; [|discriminate].
  intros k. simpl.
  destruct (String.eqb_spec k "experiment_id"), (String.eqb_spec k "calendar");
    subst; try reflexivity; discriminate.
Qed.

Lemma simulation_id_ignores_volatile_keys_witness :
  _get_simulation_id
    [("experiment_id", VStr "historical"); ("filenames", VStr "/d/v1/a.nc");
     ("calendar", VStr "noleap")]
  = _get_simulation_id
      [("contact", VStr "someone"); ("experiment_id", VStr "historical");
       ("filenames", VStr "/d/v2/b.nc"); ("calendar", VStr "noleap")].
Proof.
  apply (proj1 simulation_id_ignores_volatile_keys).
  - repeat constructor; simpl; intuition discriminate.
  - repeat constructor; simpl; intuition discriminate.
  - reflexivity.
  - intros k Hk. simpl.
    repeat match goal with
           | |- context [String.eqb k ?s] => destruct (String.eqb_spec k s); subst
           end;
      try reflexivity; try discriminate; exfalso; apply Hk; simpl; tauto.
Defined.


(** A populated result, for comparison. *)
Lemma parse_populated_example :
  Sample.parse (Sample.field [("mip_era", VStr "CMIP6"); ("activity_id", VStr "CMIP")]
                             (Some (Sample.axis [10%Z; 20%Z] (Some [(5%Z, 15%Z); (15%Z, 25%Z)]))))
  = Returned
      (Some [("mip_era", VStr "CMIP6"); ("calendar", VStr "gregorian");
             ("activity_id", VTuple ["CMIP"])],
       Some [("mip_era", VStr "CMIP6"); ("dataset_versions", VStr "v20190101");
             ("filenames", VStr "/data/CMIP/v20190101/tas.nc");
             ("calendar", VStr "gregorian"); ("activity_id", VTuple ["CMIP"])],
       Some [5%Z; 15%Z; 15%Z; 25%Z]).
Proof. reflexivity. Qed.

Lemma parent_indices_from_digit_runs_witness :
  PyStr.findall_digits (String.append "r" (String.append "10" "i2"))
  = "10" :: PyStr.findall_digits "i2".
Proof.
  apply (proj1 (parent_indices_from_digit_runs Sample.Units Sample.datetime
                  Sample.cf_Units Sample.cf_date_string) "r" "10" "i2");
    [reflexivity|reflexivity|discriminate|reflexivity].
Defined.

Lemma activity_id_sorted_tokens_witness :
  PyStr.sorted (PyStr.split "ScenarioMIP  CMIP") = PyStr.sorted (PyStr.split " CMIP ScenarioMIP").
Proof.
  apply (proj1 (proj2 (proj2 (proj2
           (activity_id_sorted_tokens Sample.Units Sample.datetime
              Sample.cf_Units Sample.cf_date_string))))).
  apply perm_swap.
Defined.

Lemma populated_result_has_calendar_witness :
  PyDict.get "calendar"
    [("mip_era", VStr "CMIP6"); ("dataset_versions", VStr "v20190101");
     ("filenames", VStr "/data/CMIP/v20190101/tas.nc"); ("calendar", VStr "gregorian")]
  = Some (VStr "gregorian").
Proof.
  apply (proj1 (proj1 (populated_result_has_calendar Sample.Units Sample.datetime
                         Sample.cf_Units Sample.cf_date_string Sample.CMIP6 Sample.CMIP5
                         Sample.CMIP6_TO_CIM2 Sample.CMIP5_TO_CIM2)
                  (Sample.field [("mip_era", VStr "CMIP6")] (Some (Sample.axis [10%Z] None)))
                  [("mip_era", VStr "CMIP6"); ("calendar", VStr "gregorian")]
                  [("mip_era", VStr "CMIP6"); ("dataset_versions", VStr "v20190101");
                   ("filenames", VStr "/data/CMIP/v20190101/tas.nc");
                   ("calendar", VStr "gregorian")]
                  [10%Z] eq_refl)).
Defined.

(** * More of the module *)

(** ** What the scanners give out *)

Lemma all_chars_snoc p acc c :
  all_chars p acc = true -> p c = true -> all_chars p (PyStr.snoc acc c) = true.
Proof.
  unfold PyStr.snoc. induction acc as [|a acc IH]; simpl; intros Ha Hc.
  - now rewrite Hc.
  - apply andb_prop in Ha. destruct Ha as [Ha1 Ha2]. rewrite Ha1. simpl. auto.
Qed.

Lemma snoc_not_empty acc c : PyStr.snoc acc c <> EmptyString.
Proof. unfold PyStr.snoc. destruct acc; discriminate. Qed.

Lemma flush_in_class p acc :
  all_chars p acc = true ->
  Forall (fun r => all_chars p r = true /\ r <> EmptyString) (PyStr.flush acc).
Proof.
  intros Ha. destruct acc as [|a acc]; simpl; constructor; [|constructor].
  split; [assumption|discriminate].
Qed.

Lemma runs_in_class p s : forall acc,
    all_chars p acc = true ->
    Forall (fun r => all_chars p r = true /\ r <> EmptyString) (PyStr.runs p acc s).
Proof.
  induction s as [|c s IH]; intros acc Ha; simpl.
  - now apply flush_in_class.
  - destruct (p c) eqn:Hc.
    + apply IH. now apply all_chars_snoc.
    + apply Forall_app. split; [now apply flush_in_class|]. now apply IH.
Qed.

Lemma concat_text_flush acc l :
  concat_text (PyStr.flush acc ++ l) = String.append acc (concat_text l).
Proof. destruct acc; reflexivity. Qed.

Lemma runs_concat p s : forall acc,
    concat_text (PyStr.runs p acc s) = String.append acc (filter_chars p s).
Proof.
  induction s as [|c s IH]; intros acc; simpl.
  - rewrite <- (app_nil_r (PyStr.flush acc)). now rewrite concat_text_flush.
  - destruct (p c).
    + rewrite IH. unfold PyStr.snoc. now rewrite append_assoc.
    + now rewrite concat_text_flush, IH.
Qed.

Lemma digit_value_range c :
  PyStr.is_digit c = true -> (0 <= PyStr.digit_value c <= 9)%Z.
Proof.
  unfold PyStr.is_digit, PyStr.digit_value. intros H.
  apply andb_prop in H. destruct H as [H1 H2].
  apply N.leb_le in H1, H2. lia.
Qed.

Lemma int_of_digits_fold l : forall acc,
    (0 <= acc)%Z ->
    Forall (fun c => PyStr.is_digit c = true) l ->
    (0 <= fold_left (fun a c => (10 * a + PyStr.digit_value c)%Z) l acc)%Z.
Proof.
  induction l as [|c l IH]; intros acc Hacc Hl; cbn [fold_left]; [assumption|].
  inversion Hl as [|? ? Hc Hl']; subst. apply IH; [|assumption].
  pose proof (digit_value_range c Hc). lia.
Qed.

Lemma all_chars_forall p s :
  all_chars p s = true -> Forall (fun c => p c = true) (list_ascii_of_string s).
Proof.
  induction s as [|c s IH]; simpl; intros H; constructor;
    apply andb_prop in H; tauto.
Qed.

Lemma int_of_digits_nonneg r :
  all_chars PyStr.is_digit r = true -> (0 <= PyStr.int_of_digits r)%Z.
Proof.
  intros H. unfold PyStr.int_of_digits.
  apply int_of_digits_fold; [lia|now apply all_chars_forall].
Qed.

(** X1. The runs of digits that [re.findall] gives out are not empty and
    hold digits only; read one after the other they are the digits of the
    label, all of them and in their order.  The tokens of [split] are the
    same for the characters that are not white space. *)
Theorem scanners_keep_the_class :
  forall s,
    Forall (fun r => all_chars PyStr.is_digit r = true /\ r <> EmptyString)
           (PyStr.findall_digits s)
    /\ concat_text (PyStr.findall_digits s) = filter_chars PyStr.is_digit s
    /\ Forall (fun t => all_chars (fun c => negb (PyStr.is_space c)) t = true
                        /\ t <> EmptyString)
              (PyStr.split s)
    /\ concat_text (PyStr.split s) = filter_chars (fun c => negb (PyStr.is_space c)) s.
Proof.
  intros s. unfold PyStr.findall_digits, PyStr.split.
  repeat split; try (now apply runs_in_class); apply runs_concat.
Qed.

Lemma in_combine_map {A B : Type} (f : A -> B) (names : list string) : forall (l : list A) k v,
    In (k, v) (combine names (map f l)) -> In k names /\ exists a, In a l /\ v = f a.
Proof.
  induction names as [|n names IH]; intros [|a l] k v; simpl; try tauto.
  intros [H|H].
  - inversion H; subst. split; [now left|]. exists a. split; [now left|reflexivity].
  - destruct (IH l k v H) as [Hk [a' [Ha' Hv]]]. split; [now right|].
    exists a'. split; [now right|assumption].
Qed.

(** X2. What the zip hands to the property set is at most four items, each
    under one of the four names of parent indices and each an integer that
    is not negative: a sign in the label is a separator, never a part of a
    number. *)
Theorem parent_indices_are_naturals :
  forall label,
    (List.length (parent_indices label) <= 4)%nat
    /\ forall k v,
        In (k, v) (parent_indices label) ->
        In k parent_index_names /\ exists n, v = VInt n /\ (0 <= n)%Z.
Proof.
  intros label. split.
  - unfold parent_indices. rewrite length_combine. apply Nat.le_min_l.
  - intros k v Hin. unfold parent_indices in Hin.
    apply in_combine_map in Hin. destruct Hin as [Hk [r [Hr Hv]]].
    split; [assumption|]. exists (PyStr.int_of_digits r). split; [assumption|].
    apply int_of_digits_nonneg.
    pose proof (runs_in_class PyStr.is_digit label EmptyString eq_refl) as Hall.
    rewrite Forall_forall in Hall. now apply Hall.
Qed.

(** ** Paths *)

Lemma split_on_aux_not_empty sep s : forall acc, PyStr.split_on_aux sep acc s <> [].
Proof.
  induction s as [|c s IH]; intros acc; simpl; [discriminate|].
  destruct (Ascii.eqb c sep); [discriminate|apply IH].
Qed.

Lemma index_last {A : Type} (x : A) l :
  PyStr.index_from_end 1 (x :: l) = Some (last l x).
Proof.
  unfold PyStr.index_from_end. simpl. rewrite Nat.sub_0_r. apply nth_error_last.
Qed.

Lemma last_cons_not_empty {A : Type} (x : A) l d :
  l <> [] -> last (x :: l) d = last l d.
Proof. destruct l; [congruence|reflexivity]. Qed.

(** The last piece of a split: it has no separator, and what stands before
    it in the text is nothing or ends with a separator. *)
Lemma split_on_aux_last sep s : forall acc d,
    all_chars (fun c => negb (Ascii.eqb c sep)) acc = true ->
    exists dir,
      String.append acc s = String.append dir (last (PyStr.split_on_aux sep acc s) d)
      /\ all_chars (fun c => negb (Ascii.eqb c sep)) (last (PyStr.split_on_aux sep acc s) d)
         = true
      /\ (dir = EmptyString
          \/ exists dir', dir = String.append dir' (String sep EmptyString)).
Proof.
  induction s as [|c s IH]; intros acc d Hacc; simpl.
  - exists EmptyString. rewrite append_empty_r. auto.
  - destruct (Ascii.eqb c sep) eqn:Hc.
    + apply Ascii.eqb_eq in Hc. subst c.
      rewrite last_cons_not_empty by apply split_on_aux_not_empty.
      destruct (IH EmptyString d eq_refl) as [dir [Heq [Hall Hdir]]].
      simpl in Heq.
      exists (String.append acc (String sep dir)). split; [|split].
      * rewrite append_assoc. simpl. now rewrite <- Heq.
      * assumption.
      * right. destruct Hdir as [->|[dir' ->]].
        -- exists acc. reflexivity.
        -- exists (String.append acc (String sep dir')).
           rewrite append_assoc. reflexivity.
    + assert (Hs : all_chars (fun c => negb (Ascii.eqb c sep)) (PyStr.snoc acc c) = true)
        by (apply all_chars_snoc; [assumption|now rewrite Hc]).
      destruct (IH (PyStr.snoc acc c) d Hs) as [dir [Heq [Hall Hdir]]].
      exists dir. split; [|split]; try assumption.
      rewrite <- Heq. unfold PyStr.snoc. now rewrite append_assoc.
Qed.

Lemma split_on_aux_single sep s : forall acc,
    all_chars (fun c => negb (Ascii.eqb c sep)) s = true ->
    PyStr.split_on_aux sep acc s = [String.append acc s].
Proof.
  induction s as [|c s IH]; intros acc Hs; simpl.
  - now rewrite append_empty_r.
  - simpl in Hs. apply andb_prop in Hs. destruct Hs as [Hc Hs].
    apply Bool.negb_true_iff in Hc. rewrite Hc, IH by assumption.
    unfold PyStr.snoc. now rewrite append_assoc.
Qed.

(** The base name of a path. *)
Lemma fname_of_returns :
  forall fpath,
  exists dir fname,
    Publish.fname_of fpath = Returned fname
    /\ fpath = String.append dir fname
    /\ all_chars not_slash fname = true
    /\ (dir = EmptyString \/ exists dir', dir = String.append dir' "/").
Proof.
  intros fpath. unfold Publish.fname_of, PyStr.split_on.
  destruct (PyStr.split_on_aux "/" EmptyString fpath) as [|x l] eqn:E.
  - exfalso. exact (split_on_aux_not_empty _ _ _ E).
  - rewrite index_last. simpl.
    destruct (split_on_aux_last "/" fpath EmptyString x eq_refl) as [dir [Heq [Hall Hdir]]].
    rewrite E in Heq, Hall. change (String.append EmptyString fpath) with fpath in Heq.
    assert (Hl : last (x :: l) x = last l x) by (destruct l; reflexivity).
    rewrite Hl in Heq, Hall.
    exists dir, (last l x). auto.
Qed.

(** X3. The name that the publication script logs for a path always
    exists: no path makes the index fail.  It is the end of the path, it
    holds no slash, and what stands before it is nothing or ends with a
    slash. *)
Theorem fname_is_the_base_name :
  forall fpath,
  exists dir fname,
    Publish.fname_of fpath = Returned fname
    /\ fpath = String.append dir fname
    /\ all_chars not_slash fname = true
    /\ (dir = EmptyString \/ exists dir', dir = String.append dir' "/").
Proof. exact fname_of_returns. Qed.

Lemma report_failures_total failures :
  exists lines,
    Publish.report_failures failures = (lines, None)
    /\ Forall2 (fun failure line =>
                  exists fname,
                    Publish.fname_of (fst failure) = Returned fname
                    /\ line = Publish.LogWarning
                                (String.append "Publication error: "
                                   (String.append fname
                                      (String.append " :: " (snd failure)))))
               failures lines.
Proof.
  induction failures as [|[fpath err] rest [lines [Hr Hl]]]; simpl.
  - exists []. split; [reflexivity|constructor].
  - destruct (fname_of_returns fpath) as [dir [fname [Hf _]]].
    rewrite Hf, Hr. eexists. split; [reflexivity|].
    constructor; [|assumption]. exists fname. auto.
Qed.

Lemma report_successes_total successes :
  exists lines,
    Publish.report_successes successes = (lines, None)
    /\ Forall2 (fun fpath line =>
                  exists fname,
                    Publish.fname_of fpath = Returned fname
                    /\ line = Publish.Log (String.append "Publication success: " fname))
               successes lines.
Proof.
  induction successes as [|fpath rest [lines [Hr Hl]]]; simpl.
  - exists []. split; [reflexivity|constructor].
  - destruct (fname_of_returns fpath) as [dir [fname [Hf _]]].
    rewrite Hf, Hr. eexists. split; [reflexivity|].
    constructor; [|assumption]. exists fname. auto.
Qed.

(** X4. The publication script never stops on a path.  It writes one
    warning for each failure, in their order, with the base name of the
    path and the error, and after them one line for each success, with the
    base name of the path. *)
Theorem publication_report :
  forall successes failures,
  exists warnings infos,
    Publish._main (successes, failures) = (warnings ++ infos, None)
    /\ Forall2 (fun failure line =>
                  exists fname,
                    Publish.fname_of (fst failure) = Returned fname
                    /\ line = Publish.LogWarning
                                (String.append "Publication error: "
                                   (String.append fname
                                      (String.append " :: " (snd failure)))))
               failures warnings
    /\ Forall2 (fun fpath line =>
                  exists fname,
                    Publish.fname_of fpath = Returned fname
                    /\ line = Publish.Log (String.append "Publication success: " fname))
               successes infos.
Proof.
  intros successes failures.
  destruct (report_failures_total failures) as [warnings [Hw Hwl]].
  destruct (report_successes_total successes) as [infos [Hi Hil]].
  exists warnings, infos. unfold Publish._main. rewrite Hw, Hi. auto.
Qed.

(** ** Dicts that stay dicts *)

Section DictOrder.

Context {V : Type}.
Implicit Types (d : dict V) (k : string) (v : V).

Lemma set_keys d k v :
  PyDict.keys (PyDict.set k v d)
  = if PyDict.contains k d then PyDict.keys d else PyDict.keys d ++ [k].
Proof.
  unfold PyDict.contains, PyDict.keys.
  induction d as [|[k0 v0] d IH]; simpl; [reflexivity|].
  destruct (String.eqb_spec k k0) as [->|Hne]; simpl; [reflexivity|].
  rewrite IH. destruct (PyDict.get k d); reflexivity.
Qed.

Lemma contains_in d k : PyDict.contains k d = true <-> In k (PyDict.keys d).
Proof.
  unfold PyDict.contains, PyDict.keys.
  induction d as [|[k0 v0] d IH]; simpl; [split; [discriminate|tauto]|].
  destruct (String.eqb_spec k k0) as [->|Hne].
  - split; auto.
  - rewrite IH. split; [tauto|]. intros [H|H]; [congruence|assumption].
Qed.

Lemma set_wf d k v : PyDict.wf d -> PyDict.wf (PyDict.set k v d).
Proof.
  unfold PyDict.wf. intros Hwf. rewrite set_keys.
  destruct (PyDict.contains k d) eqn:E; [assumption|].
  apply NoDup_app; [assumption|repeat constructor; simpl; tauto|].
  intros x Hx [<-|[]]. apply contains_in in Hx. congruence.
Qed.

Lemma set_extends d k v :
  exists rest, PyDict.keys (PyDict.set k v d) = PyDict.keys d ++ rest /\ incl rest [k].
Proof.
  rewrite set_keys. destruct (PyDict.contains k d).
  - exists []. split; [now rewrite app_nil_r|intros x []].
  - exists [k]. split; [reflexivity|apply incl_refl].
Qed.

Lemma update_wf pairs : forall d, PyDict.wf d -> PyDict.wf (PyDict.update pairs d).
Proof.
  induction pairs as [|[k v] pairs IH]; intros d Hwf; [assumption|].
  rewrite update_cons. apply IH. now apply set_wf.
Qed.

Lemma update_extends pairs : forall d,
    exists rest,
      PyDict.keys (PyDict.update pairs d) = PyDict.keys d ++ rest
      /\ incl rest (PyDict.keys pairs).
Proof.
  induction pairs as [|[k v] pairs IH]; intros d.
  - exists []. split; [now rewrite app_nil_r|intros x []].
  - rewrite update_cons.
    destruct (IH (PyDict.set k v d)) as [rest [Hr Hi]].
    destruct (set_extends d k v) as [rest0 [Hr0 Hi0]].
    exists (rest0 ++ rest). split.
    + now rewrite Hr, Hr0, app_assoc.
    + apply incl_app.
      * intros x Hx. apply Hi0 in Hx. destruct Hx as [<-|[]]. now left.
      * intros x Hx. right. now apply Hi.
Qed.

End DictOrder.

(** ** The simple mappings *)

Lemma map_simple_cons s t table ga (p : properties_t) :
  map_simple ((s, t) :: table) ga p
  = map_simple table ga
      (match PyDict.get s ga with Some v => PyDict.set t v p | None => p end).
Proof. reflexivity. Qed.

Lemma map_simple_other table ga : forall (p : properties_t) k,
    ~ In k (map snd table) ->
    PyDict.get k (map_simple table ga p) = PyDict.get k p.
Proof.
  induction table as [|[s t] table IH]; intros p k Hn; [reflexivity|].
  rewrite map_simple_cons, IH by (simpl in Hn; tauto).
  destruct (PyDict.get s ga); [|reflexivity].
  apply get_set_other. simpl in Hn. intros ->. tauto.
Qed.

Lemma map_simple_get table ga : forall (p : properties_t) s t,
    NoDup (map snd table) -> In (s, t) table ->
    PyDict.get t (map_simple table ga p)
    = match PyDict.get s ga with Some v => Some v | None => PyDict.get t p end.
Proof.
  induction table as [|[s0 t0] table IH]; intros p s t Hnd Hin; [contradiction|].
  simpl in Hnd. inversion Hnd as [|? ? Hnot Hnd']; subst.
  rewrite map_simple_cons. destruct Hin as [Heq|Hin].
  - inversion Heq; subst. rewrite map_simple_other by assumption.
    destruct (PyDict.get s ga); [apply get_set_same|reflexivity].
  - rewrite (IH _ s t Hnd' Hin).
    destruct (PyDict.get s ga); [reflexivity|].
    assert (Hne : t0 <> t).
    { intros ->. apply Hnot. change t with (snd (s, t)). now apply in_map. }
    destruct (PyDict.get s0 ga); [now apply get_set_other|reflexivity].
Qed.

Lemma map_simple_wf table ga : forall (p : properties_t),
    PyDict.wf p -> PyDict.wf (map_simple table ga p).
Proof.
  induction table as [|[s t] table IH]; intros p Hwf; [assumption|].
  rewrite map_simple_cons. apply IH.
  destruct (PyDict.get s ga); [now apply set_wf|assumption].
Qed.

(** The keys of a property set after the simple mappings are names of
    the table, and each holds an attribute of the file. *)
Lemma map_simple_keys table ga : forall (p : properties_t) k,
    In k (PyDict.keys (map_simple table ga p)) ->
    In k (PyDict.keys p) \/ In k (map snd table).
Proof.
  induction table as [|[s t] table IH]; intros p k Hin; [now left|].
  rewrite map_simple_cons in Hin. apply IH in Hin. destruct Hin as [Hin|Hin].
  - destruct (PyDict.get s ga); [|now left].
    rewrite set_keys in Hin. destruct (PyDict.contains t p); [now left|].
    apply in_app_or in Hin. destruct Hin as [Hin|[<-|[]]]; [now left|].
    right. now left.
  - right. now right.
Qed.

(** ** The enrichments, key by key *)

Lemma grows_refl names p : grows_by names p p.
Proof. exists []. split; [now rewrite app_nil_r|intros x []]. Qed.

Lemma grows_trans names p q r :
  grows_by names p q -> grows_by names q r -> grows_by names p r.
Proof.
  intros [r1 [H1 I1]] [r2 [H2 I2]]. exists (r1 ++ r2). split.
  - now rewrite H2, H1, app_assoc.
  - now apply incl_app.
Qed.

Lemma grows_set names (p : properties_t) k v :
  In k names -> grows_by names p (PyDict.set k v p).
Proof.
  intros Hk. destruct (set_extends p k v) as [rest [Hr Hi]].
  exists rest. split; [assumption|].
  intros x Hx. apply Hi in Hx. destruct Hx as [<-|[]]. assumption.
Qed.

Lemma grows_update names pairs (p : properties_t) :
  incl (PyDict.keys pairs) names -> grows_by names p (PyDict.update pairs p).
Proof.
  intros Hi. destruct (update_extends pairs p) as [rest [Hr Hi']].
  exists rest. split; [assumption|]. intros x Hx. auto.
Qed.

Lemma grows_weaken names names' p q :
  incl names names' -> grows_by names p q -> grows_by names' p q.
Proof.
  intros Hi [rest [Hr Hi']]. exists rest. split; [assumption|].
  intros x Hx. auto.
Qed.

Lemma parent_indices_keys label :
  incl (PyDict.keys (parent_indices label)) parent_index_names.
Proof. intros k Hk. unfold parent_indices in Hk. now apply keys_combine_in in Hk. Qed.

Lemma activity_shape ga (p p' : properties_t) :
  set_activity_id ga p = Returned p' ->
  p' = p \/ exists t, p' = PyDict.set "activity_id" (VTuple t) p.
Proof.
  unfold set_activity_id.
  destruct (PyDict.get "activity_id" ga) as [[s| | |]|]; try discriminate;
    intros H; inversion H; eauto.
Qed.

Lemma in_cmip6_written_cases k :
  In k cmip6_written <->
  In k parent_index_names \/ k = "branch_time_in_parent"
  \/ k = "branch_time_in_child" \/ k = "activity_id".
Proof.
  unfold cmip6_written. rewrite in_app_iff. simpl. intuition.
Qed.

Section ParserMore.

Variable Units : Type.
Variable datetime : Type.
Variable cf_Units : string -> value -> outcome Units.
Variable cf_date_string : value -> Units -> outcome string.
Variable CMIP6 CMIP5 : string.
Variable CMIP6_TO_CIM2 CMIP5_TO_CIM2 : dict string.

Local Abbreviation time_axis := (option (TimeCoords Units datetime)).
Local Abbreviation cmip5 := (_parse_cmip5_properties Units datetime).
Local Abbreviation cmip6 := (_parse_cmip6_properties Units datetime cf_Units cf_date_string).
Local Abbreviation branch_child := (set_branch_time_in_child Units datetime cf_date_string).
Local Abbreviation branch_parent := (set_branch_time_in_parent Units cf_date_string).
Local Abbreviation parent_units := (resolve_parent_time_units Units datetime cf_Units).
Local Abbreviation era_of := (_get_mip_era CMIP6 CMIP5).
Local Abbreviation parse_field :=
  (parse Units datetime cf_Units cf_date_string CMIP6 CMIP5 CMIP6_TO_CIM2 CMIP5_TO_CIM2).
Local Abbreviation fields_events :=
  (parse_fields Units datetime cf_Units cf_date_string CMIP6 CMIP5 CMIP6_TO_CIM2 CMIP5_TO_CIM2).
Local Abbreviation files_events :=
  (yield_parsed Units datetime cf_Units cf_date_string CMIP6 CMIP5 CMIP6_TO_CIM2 CMIP5_TO_CIM2).

Lemma branch_parent_shape units ga (p p' : properties_t) :
  branch_parent units ga p = Returned p' ->
  p' = p \/ exists x, p' = PyDict.set "branch_time_in_parent" (VStr x) p.
Proof.
  unfold set_branch_time_in_parent. intros H.
  destruct (PyDict.get "branch_time_in_parent" ga) as [v|]; [|inversion H; auto].
  destruct (if is_text v then _ else _) as [number|]; simpl in H; [|discriminate].
  destruct (cf_date_string number units) as [x|]; simpl in H; [|discriminate].
  inversion H. eauto.
Qed.

Lemma branch_child_shape ga (tc : time_axis) (p p' : properties_t) :
  branch_child ga tc p = Returned p' ->
  p' = p \/ exists x, p' = PyDict.set "branch_time_in_child" (VStr x) p.
Proof.
  unfold set_branch_time_in_child. intros H.
  destruct (PyDict.get "branch_time_in_child" ga) as [v|]; [|inversion H; auto].
  destruct (if negb (is_float v) then _ else _) as [number|]; simpl in H; [|discriminate].
  destruct (Units_of tc) as [units|]; simpl in H; [|discriminate].
  destruct (cf_date_string number units) as [x|]; simpl in H; [|discriminate].
  inversion H. eauto.
Qed.

(** The steps of a CMIP6 enrichment that returned. *)
Lemma cmip6_steps (p after : properties_t) ga (tc : time_axis) :
  cmip6 p ga tc = Returned after ->
  exists label units p1 p2,
    label_text "parent_variant_label" "none" ga = Returned label
    /\ parent_units (PyDict.update (parent_indices label) p) ga tc = Returned units
    /\ branch_parent units ga (PyDict.update (parent_indices label) p) = Returned p1
    /\ branch_child ga tc p1 = Returned p2
    /\ set_activity_id ga p2 = Returned after.
Proof.
  unfold _parse_cmip6_properties. intros H.
  destruct (label_text "parent_variant_label" "none" ga) as [label|]; simpl in H;
    [|discriminate].
  destruct (parent_units _ ga tc) as [units|] eqn:Eu; simpl in H; [|discriminate].
  destruct (branch_parent units ga _) as [p1|] eqn:E1; simpl in H; [|discriminate].
  destruct (branch_child ga tc p1) as [p2|] eqn:E2; simpl in H; [|discriminate].
  exists label, units, p1, p2. auto.
Qed.

(** What a CMIP6 enrichment that returned has changed. *)
Lemma cmip6_written_only :
  forall (cim2_properties after : properties_t) global_attributes (time_coords : time_axis),
    cmip6 cim2_properties global_attributes time_coords = Returned after ->
    (forall k, ~ In k cmip6_written ->
               PyDict.get k after = PyDict.get k cim2_properties)
    /\ grows_by cmip6_written cim2_properties after
    /\ (PyDict.wf cim2_properties -> PyDict.wf after).
Proof.
  intros p after ga tc H.
  destruct (cmip6_steps _ _ _ _ H) as [label [units [p1 [p2 [Hl [Hu [H1 [H2 H3]]]]]]]].
  split; [|split].
  - intros k Hk. rewrite in_cmip6_written_cases in Hk.
    destruct (cmip6_returned _ _ _ _ _ _ _ _ H) as [label' [Hl' Hkeep]].
    rewrite Hkeep by tauto. apply get_update_other.
    intros Hin. apply parent_indices_keys in Hin. tauto.
  - apply grows_trans with (PyDict.update (parent_indices label) p).
    { apply grows_update. intros k Hk. apply in_cmip6_written_cases.
      left. exact (parent_indices_keys label k Hk). }
    apply grows_trans with p1.
    { destruct (branch_parent_shape _ _ _ _ H1) as [->|[x ->]];
        [apply grows_refl|apply grows_set, in_cmip6_written_cases; auto]. }
    apply grows_trans with p2.
    { destruct (branch_child_shape _ _ _ _ H2) as [->|[x ->]];
        [apply grows_refl|apply grows_set, in_cmip6_written_cases; auto]. }
    destruct (activity_shape _ _ _ H3) as [->|[t ->]];
      [apply grows_refl|apply grows_set, in_cmip6_written_cases; auto].
  - intros Hwf.
    assert (W0 : PyDict.wf (PyDict.update (parent_indices label) p)) by now apply update_wf.
    assert (W1 : PyDict.wf p1)
      by (destruct (branch_parent_shape _ _ _ _ H1) as [->|[x ->]];
          [assumption|now apply set_wf]).
    assert (W2 : PyDict.wf p2)
      by (destruct (branch_child_shape _ _ _ _ H2) as [->|[x ->]];
          [assumption|now apply set_wf]).
    destruct (activity_shape _ _ _ H3) as [->|[t ->]]; [assumption|now apply set_wf].
Qed.

(** X5. A CMIP6 enrichment that returns has written nothing but its seven
    properties (the four parent indices, the two branch times and
    activity_id): every other property reads as before, the properties
    that were there keep their places, what is new comes after them, and
    no key is there twice. *)
Theorem cmip6_writes_seven_keys :
  forall (cim2_properties after : properties_t) global_attributes (time_coords : time_axis),
    cmip6 cim2_properties global_attributes time_coords = Returned after ->
    (forall k, ~ In k cmip6_written ->
               PyDict.get k after = PyDict.get k cim2_properties)
    /\ grows_by cmip6_written cim2_properties after
    /\ (PyDict.wf cim2_properties -> PyDict.wf after).
Proof. exact cmip6_written_only. Qed.

Lemma cmip5_returned (p after : properties_t) ga (tc : time_axis) :
  cmip5 p ga tc = Returned after ->
  existsb is_na p = false
  /\ exists label,
      label_text "parent_experiment_rip" "N/A" ga = Returned label
      /\ after = PyDict.update (parent_indices label) p.
Proof.
  unfold _parse_cmip5_properties. rewrite prune_whole. intros H.
  destruct (existsb is_na p); simpl in H; [discriminate|]. split; [reflexivity|].
  destruct (label_text "parent_experiment_rip" "N/A" ga) as [label|]; simpl in H;
    [|discriminate].
  exists label. split; [reflexivity|]. now inversion H.
Qed.

Lemma label_text_returns key default ga :
  (exists label, label_text key default ga = Returned label)
  <-> text_or_absent (PyDict.get key ga) = true.
Proof.
  unfold label_text, text_or_absent.
  destruct (PyDict.get key ga) as [[s| | |]|]; split; intros H;
    try discriminate; try (destruct H; discriminate); eauto.
Qed.

(** When a CMIP5 enrichment returns, and what it has changed. *)
Lemma cmip5_returns_iff :
  forall (cim2_properties : properties_t) global_attributes (time_coords : time_axis),
    ((exists after, cmip5 cim2_properties global_attributes time_coords = Returned after)
     <-> existsb is_na cim2_properties = false
         /\ text_or_absent (PyDict.get "parent_experiment_rip" global_attributes) = true)
    /\ forall after,
        cmip5 cim2_properties global_attributes time_coords = Returned after ->
        (forall k, ~ In k parent_index_names ->
                   PyDict.get k after = PyDict.get k cim2_properties)
        /\ grows_by parent_index_names cim2_properties after
        /\ (PyDict.wf cim2_properties -> PyDict.wf after).
Proof.
  intros p ga tc. split.
  - split.
    + intros [after H]. destruct (cmip5_returned _ _ _ _ H) as [Hna [label [Hl _]]].
      split; [assumption|]. apply (label_text_returns "parent_experiment_rip" "N/A"). eauto.
    + intros [Hna Ht]. apply (label_text_returns "parent_experiment_rip" "N/A") in Ht.
      destruct Ht as [label Hl].
      eexists. apply cmip5_without_na; eassumption.
  - intros after H. destruct (cmip5_returned _ _ _ _ H) as [Hna [label [Hl ->]]].
    split; [|split].
    + intros k Hk. apply get_update_other. intros Hin.
      now apply parent_indices_keys in Hin.
    + apply grows_update, parent_indices_keys.
    + apply update_wf.
Qed.

(** X6. The CMIP5 enrichment returns exactly when no property holds the
    text N/A and parent_experiment_rip is text or absent.  It then has
    removed nothing: every property that is not a parent index reads as
    before, the properties keep their places and no key is there twice. *)
Theorem cmip5_returns_without_pruning :
  forall (cim2_properties : properties_t) global_attributes (time_coords : time_axis),
    ((exists after, cmip5 cim2_properties global_attributes time_coords = Returned after)
     <-> existsb is_na cim2_properties = false
         /\ text_or_absent (PyDict.get "parent_experiment_rip" global_attributes) = true)
    /\ forall after,
        cmip5 cim2_properties global_attributes time_coords = Returned after ->
        (forall k, ~ In k parent_index_names ->
                   PyDict.get k after = PyDict.get k cim2_properties)
        /\ grows_by parent_index_names cim2_properties after
        /\ (PyDict.wf cim2_properties -> PyDict.wf after).
Proof. exact cmip5_returns_iff. Qed.

End ParserMore.

(** ** Property sets that differ in volatile values only *)

Lemma sbv_refl p : same_but_volatile p p.
Proof. induction p; constructor; auto. Qed.

Lemma sbv_get p q k :
  same_but_volatile p q -> is_volatile k = false -> PyDict.get k p = PyDict.get k q.
Proof.
  intros H Hk. induction H as [|[k1 v1] [k2 v2] p q [Hkey Hval] _ IH]; [reflexivity|].
  simpl in *. subst k2. destruct (String.eqb_spec k k1) as [->|Hne]; [|assumption].
  destruct Hval as [->|Hv]; [reflexivity|congruence].
Qed.

Lemma sbv_set_values p q k v v' :
  same_but_volatile p q -> v = v' \/ is_volatile k = true ->
  same_but_volatile (PyDict.set k v p) (PyDict.set k v' q).
Proof.
  intros H Hv. induction H as [|[k1 v1] [k2 v2] p q [Hkey Hval] Hrest IH]; simpl.
  - constructor; [|constructor]. auto.
  - simpl in Hkey. subst k2. destruct (String.eqb k k1).
    + constructor; [|assumption]. auto.
    + constructor; [|assumption]. auto.
Qed.

Lemma sbv_set p q k v :
  same_but_volatile p q -> same_but_volatile (PyDict.set k v p) (PyDict.set k v q).
Proof. intros H. apply sbv_set_values; auto. Qed.

Lemma sbv_update pairs : forall p q,
    same_but_volatile p q ->
    same_but_volatile (PyDict.update pairs p) (PyDict.update pairs q).
Proof.
  induction pairs as [|[k v] pairs IH]; intros p q H; [assumption|].
  rewrite !update_cons. apply IH. now apply sbv_set.
Qed.

Lemma sbv_same_id p q :
  same_but_volatile p q -> _get_simulation_id p = _get_simulation_id q.
Proof.
  unfold _get_simulation_id.
  induction 1 as [|[k1 v1] [k2 v2] p q [Hkey Hval] _ IH]; [reflexivity|].
  simpl in *. subst k2. rewrite IH.
  destruct (is_volatile k1) eqn:Hk; simpl; [reflexivity|].
  destruct Hval as [->|Hv]; [reflexivity|congruence].
Qed.

Lemma sbv_activity ga p q p' q' :
  same_but_volatile p q ->
  set_activity_id ga p = Returned p' -> set_activity_id ga q = Returned q' ->
  same_but_volatile p' q'.
Proof.
  unfold set_activity_id. intros H Hp Hq.
  destruct (PyDict.get "activity_id" ga) as [[s| | |]|]; try discriminate;
    inversion Hp; inversion Hq; subst; [now apply sbv_set|assumption].
Qed.

Section ParserWhole.

Variable Units : Type.
Variable datetime : Type.
Variable cf_Units : string -> value -> outcome Units.
Variable cf_date_string : value -> Units -> outcome string.
Variable CMIP6 CMIP5 : string.
Variable CMIP6_TO_CIM2 CMIP5_TO_CIM2 : dict string.

Local Abbreviation time_axis := (option (TimeCoords Units datetime)).
Local Abbreviation cmip5 := (_parse_cmip5_properties Units datetime).
Local Abbreviation cmip6 := (_parse_cmip6_properties Units datetime cf_Units cf_date_string).
Local Abbreviation branch_child := (set_branch_time_in_child Units datetime cf_date_string).
Local Abbreviation branch_parent := (set_branch_time_in_parent Units cf_date_string).
Local Abbreviation parent_units := (resolve_parent_time_units Units datetime cf_Units).
Local Abbreviation era_of := (_get_mip_era CMIP6 CMIP5).
Local Abbreviation parse_field :=
  (parse Units datetime cf_Units cf_date_string CMIP6 CMIP5 CMIP6_TO_CIM2 CMIP5_TO_CIM2).
Local Abbreviation fields_events :=
  (parse_fields Units datetime cf_Units cf_date_string CMIP6 CMIP5 CMIP6_TO_CIM2 CMIP5_TO_CIM2).
Local Abbreviation files_events :=
  (yield_parsed Units datetime cf_Units cf_date_string CMIP6 CMIP5 CMIP6_TO_CIM2 CMIP5_TO_CIM2).

(** How a populated result came about. *)
Lemma parse_inversion (cf_field : Field Units datetime) identifier cim2_properties dates :
  parse_field cf_field = Returned (Some identifier, Some cim2_properties, Some dates) ->
  exists table version,
    equals_text (PyDict.get "frequency" (properties cf_field)) "fx" = false
    /\ _get_field_start_end_dates (dim_T cf_field) = Returned dates
    /\ PyStr.index_from_end 2 (PyStr.split_on "/" (fpath cf_field)) = Some version
    /\ identifier = _get_simulation_id cim2_properties
    /\ ((era_is (era_of (properties cf_field)) CMIP6 = true
         /\ table = CMIP6_TO_CIM2
         /\ cmip6 (base_properties cf_field table version) (properties cf_field)
                  (dim_T cf_field) = Returned cim2_properties)
        \/ (era_is (era_of (properties cf_field)) CMIP6 = false
            /\ era_is (era_of (properties cf_field)) CMIP5 = true
            /\ table = CMIP5_TO_CIM2
            /\ cmip5 (base_properties cf_field table version) (properties cf_field)
                     (dim_T cf_field) = Returned cim2_properties)).
Proof.
  unfold parse.
  destruct (equals_text (PyDict.get "frequency" (properties cf_field)) "fx") eqn:Hfx;
    simpl; [discriminate|].
  unfold dim. destruct (dim_T cf_field) as [tc|] eqn:Htc;
    cbn [bind logging or_raise app]; [|discriminate].
  destruct (_get_field_start_end_dates (Some tc)) as [ds|e log] eqn:Hd;
    simpl; [|discriminate].
  destruct ds as [|d ds]; [discriminate|].
  destruct (era_is (era_of (properties cf_field)) CMIP6) eqn:E6.
  - simpl.
    destruct (PyStr.index_from_end 2 (PyStr.split_on "/" (fpath cf_field)))
      as [version|] eqn:Hv; simpl; [|discriminate].
    match goal with
    | |- bind ?m _ = _ -> _ => destruct m as [props|] eqn:Hen; simpl; [|discriminate]
    end.
    intros H. inversion H; subst.
    exists CMIP6_TO_CIM2, version. unfold base_properties. rewrite Htc. repeat split; auto.
  - destruct (era_is (era_of (properties cf_field)) CMIP5) eqn:E5; simpl; [|discriminate].
    destruct (PyStr.index_from_end 2 (PyStr.split_on "/" (fpath cf_field)))
      as [version|] eqn:Hv; simpl; [|discriminate].
    match goal with
    | |- bind ?m _ = _ -> _ => destruct m as [props|] eqn:Hen; simpl; [|discriminate]
    end.
    intros H. inversion H; subst.
    exists CMIP5_TO_CIM2, version. unfold base_properties. rewrite Htc. repeat split; auto.
Qed.

Lemma base_wf (cf_field : Field Units datetime) table version :
  PyDict.wf (base_properties cf_field table version).
Proof.
  unfold base_properties. repeat apply set_wf. apply map_simple_wf. constructor.
Qed.

Lemma base_keys (cf_field : Field Units datetime) table version k :
  In k (PyDict.keys (base_properties cf_field table version)) ->
  In k ["dataset_versions"; "filenames"; "calendar"] \/ In k (map snd table).
Proof.
  unfold base_properties. intros H.
  repeat (rewrite set_keys in H;
          match type of H with
          | In _ (if ?b then _ else _) => destruct b
          end;
          [|apply in_app_or in H; destruct H as [H|[<-|[]]]; [|simpl; tauto]]).
  all: apply map_simple_keys in H; destruct H as [[]|H]; now right.
Qed.

(** What a populated result has of the property set before the enrichment. *)
Lemma populated_from_base (cf_field : Field Units datetime) identifier cim2_properties dates :
  parse_field cf_field = Returned (Some identifier, Some cim2_properties, Some dates) ->
  exists table version,
    PyStr.index_from_end 2 (PyStr.split_on "/" (fpath cf_field)) = Some version
    /\ identifier = _get_simulation_id cim2_properties
    /\ ((era_is (era_of (properties cf_field)) CMIP6 = true /\ table = CMIP6_TO_CIM2)
        \/ (era_is (era_of (properties cf_field)) CMIP6 = false
            /\ era_is (era_of (properties cf_field)) CMIP5 = true
            /\ table = CMIP5_TO_CIM2))
    /\ (forall k, ~ In k cmip6_written ->
                  PyDict.get k cim2_properties
                  = PyDict.get k (base_properties cf_field table version))
    /\ grows_by cmip6_written (base_properties cf_field table version) cim2_properties
    /\ PyDict.wf cim2_properties.
Proof.
  intros H. destruct (parse_inversion _ _ _ _ H)
    as [table [version [Hfx [Hd [Hv [Hid Hera]]]]]].
  exists table, version. split; [assumption|]. split; [assumption|].
  destruct Hera as [[E6 [Ht Hen]]|[E6 [E5 [Ht Hen]]]].
  - destruct (cmip6_written_only Units datetime cf_Units cf_date_string _ _ _ _ Hen)
      as [Hk [Hg Hw]].
    split; [auto|]. split; [assumption|]. split; [assumption|].
    apply Hw, base_wf.
  - destruct (cmip5_returns_iff Units datetime
                (base_properties cf_field table version) (properties cf_field)
                (dim_T cf_field)) as [_ Hafter].
    destruct (Hafter _ Hen) as [Hk [Hg Hw]].
    split; [auto|]. split; [|split].
    + intros k Hn. apply Hk. intros Hin. apply Hn.
      apply in_cmip6_written_cases. now left.
    + eapply grows_weaken; [|exact Hg]. intros k Hin.
      apply in_cmip6_written_cases. now left.
    + apply Hw, base_wf.
Qed.

(** X7. The property set of a populated result is a mapping: no key is
    there twice.  Its keys are names of the table of simple mappings of the
    era, or among the ten names that the parser writes itself. *)
Theorem populated_properties_are_a_mapping :
  forall (cf_field : Field Units datetime) identifier cim2_properties dates,
    parse_field cf_field = Returned (Some identifier, Some cim2_properties, Some dates) ->
    PyDict.wf cim2_properties
    /\ exists table,
        (table = CMIP6_TO_CIM2 \/ table = CMIP5_TO_CIM2)
        /\ forall k, In k (PyDict.keys cim2_properties) ->
                     In k written_after_mapping \/ In k (map snd table).
Proof.
  intros f id props dates H.
  destruct (populated_from_base _ _ _ _ H)
    as [table [version [Hv [Hid [Hera [Hk [[rest [Hr Hi]] Hw]]]]]]].
  split; [assumption|]. exists table. split.
  - destruct Hera as [[_ ->]|[_ [_ ->]]]; auto.
  - intros k Hin. rewrite Hr in Hin. apply in_app_or in Hin.
    unfold written_after_mapping. rewrite in_app_iff.
    destruct Hin as [Hin|Hin].
    + apply base_keys in Hin. tauto.
    + left. right. now apply Hi.
Qed.

(** X8. A populated result holds the path of the file under filenames and
    the last but one piece of the path under dataset_versions; neither of
    them is in the identifier. *)
Theorem populated_result_records_the_path :
  forall (cf_field : Field Units datetime) identifier cim2_properties dates,
    parse_field cf_field = Returned (Some identifier, Some cim2_properties, Some dates) ->
    PyDict.get "filenames" cim2_properties = Some (VStr (fpath cf_field))
    /\ (exists version,
          PyStr.index_from_end 2 (PyStr.split_on "/" (fpath cf_field)) = Some version
          /\ PyDict.get "dataset_versions" cim2_properties = Some (VStr version))
    /\ forall v, ~ In ("filenames", v) identifier
                 /\ ~ In ("dataset_versions", v) identifier.
Proof.
  intros f id props dates H.
  destruct (populated_from_base _ _ _ _ H)
    as [table [version [Hv [Hid [Hera [Hk [Hg Hw]]]]]]].
  split; [|split].
  - rewrite Hk by (unfold cmip6_written, parent_index_names; simpl; intuition discriminate).
    unfold base_properties. rewrite get_set_other by discriminate. apply get_set_same.
  - exists version. split; [assumption|].
    rewrite Hk by (unfold cmip6_written, parent_index_names; simpl; intuition discriminate).
    unfold base_properties. rewrite !get_set_other by discriminate. apply get_set_same.
  - intros v. subst id. unfold _get_simulation_id.
    split; intros Hin; apply filter_In in Hin; destruct Hin as [_ Hin]; discriminate Hin.
Qed.

(** X9. When the names of a table are pairwise distinct, a populated
    result gives every mapped attribute of the file under its name, and
    nothing under the name of an attribute that the file has not, as long
    as the name is not one that the parser writes itself. *)
Theorem populated_result_maps_the_attributes :
  forall (cf_field : Field Units datetime) identifier cim2_properties dates,
    parse_field cf_field = Returned (Some identifier, Some cim2_properties, Some dates) ->
    exists table,
      ((era_is (era_of (properties cf_field)) CMIP6 = true /\ table = CMIP6_TO_CIM2)
       \/ (era_is (era_of (properties cf_field)) CMIP6 = false /\ table = CMIP5_TO_CIM2))
      /\ (NoDup (map snd table) ->
          forall attribute name,
            In (attribute, name) table -> ~ In name written_after_mapping ->
            PyDict.get name cim2_properties
            = PyDict.get attribute (properties cf_field)).
Proof.
  intros f id props dates H.
  destruct (populated_from_base _ _ _ _ H)
    as [table [version [Hv [Hid [Hera [Hk [Hg Hw]]]]]]].
  exists table. split; [tauto|].
  intros Hnd s t Hin Hn. unfold written_after_mapping in Hn. rewrite in_app_iff in Hn.
  rewrite Hk by tauto. unfold base_properties.
  rewrite !get_set_other by (intros <-; apply Hn; left; simpl; tauto).
  rewrite (map_simple_get table (properties f) [] s t Hnd Hin).
  destruct (PyDict.get s (properties f)); reflexivity.
Qed.

(** X10. A field with usable dates and a known era whose path holds no
    slash has no last but one piece: the parse raises IndexError, and no
    handler of the parse logs it. *)
Theorem path_without_slash_raises :
  forall (cf_field : Field Units datetime) d ds,
    equals_text (PyDict.get "frequency" (properties cf_field)) "fx" = false ->
    _get_field_start_end_dates (dim_T cf_field) = Returned (d :: ds) ->
    era_is (era_of (properties cf_field)) CMIP6 = true
    \/ era_is (era_of (properties cf_field)) CMIP5 = true ->
    all_chars not_slash (fpath cf_field) = true ->
    parse_field cf_field = Raised IndexError [].
Proof.
  intros f d ds Hfx Hd Hera Hp. unfold parse.
  rewrite Hfx. cbv iota.
  rewrite axis_read by (intros E; rewrite E in Hd; discriminate Hd).
  simpl. rewrite Hd. simpl.
  assert (Hs : PyStr.split_on "/" (fpath f) = [fpath f]).
  { unfold PyStr.split_on. now rewrite (split_on_aux_single "/" (fpath f) EmptyString Hp). }
  rewrite Hs.
  destruct (era_is (era_of (properties f)) CMIP6); [reflexivity|].
  destruct Hera as [Hera|Hera]; [discriminate|]. rewrite Hera. reflexivity.
Qed.

(** ** Two files of one simulation *)

Lemma parent_units_sbv p q ga (tc1 tc2 : time_axis) :
  same_but_volatile p q -> Units_of tc1 = Units_of tc2 ->
  parent_units p ga tc1 = parent_units q ga tc2.
Proof.
  intros H HU. unfold resolve_parent_time_units.
  rewrite (sbv_get p q "calendar" H eq_refl). now rewrite HU.
Qed.

Lemma branch_parent_sbv units ga p q p' q' :
  same_but_volatile p q ->
  branch_parent units ga p = Returned p' -> branch_parent units ga q = Returned q' ->
  same_but_volatile p' q'.
Proof.
  unfold set_branch_time_in_parent. intros H Hp Hq.
  destruct (PyDict.get "branch_time_in_parent" ga) as [v|].
  - destruct (if is_text v then _ else _) as [number|]; simpl in *; [|discriminate].
    destruct (cf_date_string number units) as [x|]; simpl in *; [|discriminate].
    inversion Hp; inversion Hq; subst. now apply sbv_set.
  - inversion Hp; inversion Hq; subst. assumption.
Qed.

Lemma branch_child_sbv ga (tc1 tc2 : time_axis) p q p' q' :
  same_but_volatile p q -> Units_of tc1 = Units_of tc2 ->
  branch_child ga tc1 p = Returned p' -> branch_child ga tc2 q = Returned q' ->
  same_but_volatile p' q'.
Proof.
  unfold set_branch_time_in_child. intros H HU Hp Hq. rewrite HU in Hp.
  destruct (PyDict.get "branch_time_in_child" ga) as [v|].
  - destruct (if negb (is_float v) then _ else _) as [number|]; simpl in *; [|discriminate].
    destruct (Units_of tc2) as [units|]; simpl in *; [|discriminate].
    destruct (cf_date_string number units) as [x|]; simpl in *; [|discriminate].
    inversion Hp; inversion Hq; subst. now apply sbv_set.
  - inversion Hp; inversion Hq; subst. assumption.
Qed.

Lemma cmip6_sbv ga (tc1 tc2 : time_axis) p q p' q' :
  same_but_volatile p q -> Units_of tc1 = Units_of tc2 ->
  cmip6 p ga tc1 = Returned p' -> cmip6 q ga tc2 = Returned q' ->
  same_but_volatile p' q'.
Proof.
  intros H HU Hp Hq.
  destruct (cmip6_steps Units datetime cf_Units cf_date_string _ _ _ _ Hp)
    as [l1 [u1 [a1 [b1 [Hl1 [Hu1 [Ha1 [Hb1 Hc1]]]]]]]].
  destruct (cmip6_steps Units datetime cf_Units cf_date_string _ _ _ _ Hq)
    as [l2 [u2 [a2 [b2 [Hl2 [Hu2 [Ha2 [Hb2 Hc2]]]]]]]].
  assert (l2 = l1) by congruence. subst l2.
  pose proof (sbv_update (parent_indices l1) p q H) as H0.
  rewrite (parent_units_sbv _ _ ga tc1 tc2 H0 HU) in Hu1.
  assert (u2 = u1) by congruence. subst u2.
  pose proof (branch_parent_sbv _ _ _ _ _ _ H0 Ha1 Ha2) as H1.
  pose proof (branch_child_sbv _ _ _ _ _ _ _ H1 HU Hb1 Hb2) as H2.
  exact (sbv_activity _ _ _ _ _ H2 Hc1 Hc2).
Qed.

Lemma cmip5_sbv ga (tc1 tc2 : time_axis) p q p' q' :
  same_but_volatile p q ->
  cmip5 p ga tc1 = Returned p' -> cmip5 q ga tc2 = Returned q' ->
  same_but_volatile p' q'.
Proof.
  intros H Hp Hq.
  destruct (cmip5_returned Units datetime _ _ _ _ Hp) as [_ [l1 [Hl1 ->]]].
  destruct (cmip5_returned Units datetime _ _ _ _ Hq) as [_ [l2 [Hl2 ->]]].
  assert (l2 = l1) by congruence. subst l2. now apply sbv_update.
Qed.

Lemma base_sbv (f1 f2 : Field Units datetime) table v1 v2 :
  properties f1 = properties f2 ->
  _get_calendar (dim_T f1) = _get_calendar (dim_T f2) ->
  same_but_volatile (base_properties f1 table v1) (base_properties f2 table v2).
Proof.
  intros Hga Hcal. unfold base_properties. rewrite Hga, Hcal.
  apply sbv_set. apply sbv_set_values; [|now right].
  apply sbv_set_values; [|now right]. apply sbv_refl.
Qed.

(** X11. Two fields with the same global attributes, the same units of
    time and the same calendar get the same identifier when both are
    parsed to the end, whatever their paths and whatever the cells of
    their time coordinates. *)
Theorem files_of_one_simulation_share_the_identifier :
  forall (f1 f2 : Field Units datetime) id1 props1 dates1 id2 props2 dates2,
    properties f1 = properties f2 ->
    Units_of (dim_T f1) = Units_of (dim_T f2) ->
    _get_calendar (dim_T f1) = _get_calendar (dim_T f2) ->
    parse_field f1 = Returned (Some id1, Some props1, Some dates1) ->
    parse_field f2 = Returned (Some id2, Some props2, Some dates2) ->
    id1 = id2.
Proof.
  intros f1 f2 id1 props1 dates1 id2 props2 dates2 Hga HU Hcal H1 H2.
  destruct (parse_inversion _ _ _ _ H1) as [t1 [v1 [_ [_ [_ [-> E1]]]]]].
  destruct (parse_inversion _ _ _ _ H2) as [t2 [v2 [_ [_ [_ [-> E2]]]]]].
  apply sbv_same_id. rewrite <- Hga in E2.
  destruct E1 as [[A1 [-> C1]]|[A1 [B1 [-> C1]]]];
    destruct E2 as [[A2 [-> C2]]|[A2 [B2 [-> C2]]]]; try congruence.
  - eapply cmip6_sbv; [|exact HU|exact C1|exact C2]. now apply base_sbv.
  - eapply cmip5_sbv; [|exact C1|exact C2]. now apply base_sbv.
Qed.

(** ** All fields, in order *)

Lemma parse_fields_app fs1 : forall fs2,
    fields_events (fs1 ++ fs2)
    = match fields_events fs1 with
      | (evs, Some err) => (evs, Some err)
      | (evs, None) => let (evs', err) := fields_events fs2 in (evs ++ evs', err)
      end.
Proof.
  induction fs1 as [|f fs1 IH]; intros fs2; simpl.
  - now destruct (fields_events fs2).
  - destruct (logging _ (parse_field f)) as [r|e log]; [|reflexivity].
    rewrite IH. destruct (fields_events fs1) as [evs [err|]]; [reflexivity|].
    destruct (fields_events fs2) as [evs' err']. now rewrite app_assoc.
Qed.

Lemma yield_parsed_app files1 : forall files2,
    files_events (files1 ++ files2)
    = match files_events files1 with
      | (evs, Some err) => (evs, Some err)
      | (evs, None) => let (evs', err) := files_events files2 in (evs ++ evs', err)
      end.
Proof.
  induction files1 as [|fs files1 IH]; intros files2; simpl.
  - now destruct (files_events files2).
  - destruct (fields_events fs) as [evs0 [err0|]]; [reflexivity|].
    rewrite IH. destruct (files_events files1) as [evs [err|]]; [reflexivity|].
    destruct (files_events files2) as [evs' err'].
    now rewrite <- app_assoc, <- app_comm_cons.
Qed.

(** X12. The generator stops at the first field whose parse raises.  What
    the fields before it yielded stays, the file of the field is not
    closed, no later field is parsed, and the exception goes on with one
    more line in the log, which names the path of the field. *)
Theorem yield_parsed_stops_at_the_first_error :
  forall files_before fields_before (cf_field : Field Units datetime)
         fields_after files_after evs0 evs1 e log,
    files_events files_before = (evs0, None) ->
    fields_events fields_before = (evs1, None) ->
    parse_field cf_field = Raised e log ->
    files_events
      (files_before ++ (fields_before ++ cf_field :: fields_after) :: files_after)
    = (evs0 ++ evs1, Some (e, log ++ [failed_msg (fpath cf_field)])).
Proof.
  intros files_before fields_before f fields_after files_after evs0 evs1 e log H0 H1 Hf.
  rewrite yield_parsed_app, H0. simpl.
  rewrite parse_fields_app, H1. simpl. rewrite Hf. simpl.
  now rewrite app_nil_r.
Qed.

Lemma parse_fields_sound fs : forall evs err cf_field identifier cim2_properties dates,
    fields_events fs = (evs, err) ->
    In (Yield Units datetime cf_field identifier cim2_properties dates) evs ->
    In cf_field fs
    /\ parse_field cf_field = Returned (identifier, cim2_properties, dates)
    /\ truthy identifier = true.
Proof.
  induction fs as [|f0 rest IH]; intros evs err f id props dates Hev Hin; simpl in Hev.
  - inversion Hev; subst. contradiction.
  - destruct (parse_field f0) as [[[id0 props0] dates0]|e log] eqn:E0; simpl in Hev.
    + destruct (fields_events rest) as [evs' err'] eqn:Er.
      inversion Hev; subst. apply in_app_or in Hin. destruct Hin as [Hin|Hin].
      * unfold yielded in Hin. destruct (truthy id0) eqn:Ht; [|contradiction].
        destruct Hin as [Hin|[]]. inversion Hin; subst.
        split; [now left|split; assumption].
      * destruct (IH _ _ _ _ _ _ eq_refl Hin) as [Hi [Hp Ht]].
        split; [now right|split; assumption].
    + inversion Hev; subst. contradiction.
Qed.

(** X13. Whatever the generator yields is a field of its input with the
    result of its own parse, and the identifier of that result is not
    empty; a field whose frequency is fx is never yielded.  This holds
    for the events before an error as well. *)
Theorem yield_parsed_yields_parsed_fields_only :
  forall files evs err (cf_field : Field Units datetime) identifier cim2_properties dates,
    files_events files = (evs, err) ->
    In (Yield Units datetime cf_field identifier cim2_properties dates) evs ->
    (exists cf_fields, In cf_fields files /\ In cf_field cf_fields)
    /\ parse_field cf_field = Returned (identifier, cim2_properties, dates)
    /\ truthy identifier = true
    /\ equals_text (PyDict.get "frequency" (properties cf_field)) "fx" = false.
Proof.
  assert (Hmain : forall files evs err (f : Field Units datetime) id props dates,
             files_events files = (evs, err) ->
             In (Yield Units datetime f id props dates) evs ->
             (exists fs, In fs files /\ In f fs)
             /\ parse_field f = Returned (id, props, dates)
             /\ truthy id = true).
  { induction files as [|fs rest IH]; intros evs err f id props dates Hev Hin;
      simpl in Hev.
    - inversion Hev; subst. contradiction.
    - destruct (fields_events fs) as [evs0 [err0|]] eqn:E0.
      + inversion Hev; subst.
        destruct (parse_fields_sound _ _ _ _ _ _ _ E0 Hin) as [Hi [Hp Ht]].
        split; [exists fs; split; [now left|assumption]|auto].
      + destruct (files_events rest) as [evs' err'] eqn:Er.
        inversion Hev; subst. apply in_app_or in Hin.
        destruct Hin as [Hin|[Hin|Hin]].
        * destruct (parse_fields_sound _ _ _ _ _ _ _ E0 Hin) as [Hi [Hp Ht]].
          split; [exists fs; split; [now left|assumption]|auto].
        * discriminate Hin.
        * destruct (IH _ _ _ _ _ _ eq_refl Hin) as [[fs' [Hf' Hi]] [Hp Ht]].
          split; [exists fs'; split; [now right|assumption]|auto]. }
  intros files evs err f id props dates Hev Hin.
  destruct (Hmain _ _ _ _ _ _ _ Hev Hin) as [Hex [Hp Ht]].
  repeat split; try assumption.
  destruct (equals_text (PyDict.get "frequency" (properties f)) "fx") eqn:Hfx;
    [|reflexivity].
  unfold parse in Hp. rewrite Hfx in Hp. simpl in Hp. inversion Hp; subst. discriminate Ht.
Qed.

Lemma parse_fields_no_close fs : forall evs err,
    fields_events fs = (evs, err) -> List.length (filter is_close evs) = 0%nat.
Proof.
  induction fs as [|f0 rest IH]; intros evs err Hev; simpl in Hev.
  - now inversion Hev.
  - destruct (parse_field f0) as [[[id0 props0] dates0]|e log]; simpl in Hev.
    + destruct (fields_events rest) as [evs' err'] eqn:Er.
      inversion Hev; subst. rewrite filter_app, length_app, (IH _ _ eq_refl).
      unfold yielded. destruct (truthy id0); reflexivity.
    + now inversion Hev.
Qed.

(** X14. The generator closes a file once for each list of fields that it
    went through to the end: as many times as there are lists when no
    parse raised, and fewer times when one did. *)
Theorem yield_parsed_closes_each_file_once :
  forall (files : list (list (Field Units datetime))) evs err,
    files_events files = (evs, err) ->
    match err with
    | None => List.length (filter is_close evs) = List.length files
    | Some _ => (List.length (filter is_close evs) < List.length files)%nat
    end.
Proof.
  induction files as [|fs rest IH]; intros evs err Hev; simpl in Hev.
  - inversion Hev; subst. reflexivity.
  - destruct (fields_events fs) as [evs0 [err0|]] eqn:E0.
    + inversion Hev; subst. rewrite (parse_fields_no_close _ _ _ E0). simpl. lia.
    + destruct (files_events rest) as [evs' err'] eqn:Er.
      inversion Hev; subst. specialize (IH _ _ eq_refl).
      rewrite filter_app, length_app, (parse_fields_no_close _ _ _ E0). simpl.
      destruct err; simpl; lia.
Qed.

End ParserWhole.

(** ** The dates of an axis *)

Lemma index_from_end_in {A : Type} k (a : list A) x :
  PyStr.index_from_end k a = Some x -> In x a.
Proof.
  unfold PyStr.index_from_end. destruct (List.length a <? k)%nat; [discriminate|].
  apply nth_error_In.
Qed.

Lemma item_in {A : Type} i (a : list A) x : item i a = Some x -> In x a.
Proof.
  unfold item. destruct (0 <=? i)%Z; [apply nth_error_In|apply index_from_end_in].
Qed.

Lemma take_returned {A : Type} index : forall (a l : list A),
    take index a = Returned l ->
    List.length l = List.length index /\ forall x, In x l -> In x a.
Proof.
  induction index as [|i index IH]; intros a l H; simpl in H.
  - inversion H; subst. split; [reflexivity|intros x []].
  - destruct (item i a) as [x0|] eqn:Ei; simpl in H; [|discriminate].
    destruct (take index a) as [xs|] eqn:Et; simpl in H; [|discriminate].
    inversion H; subst. destruct (IH a xs Et) as [Hl Hin]. split.
    + simpl. now rewrite Hl.
    + intros x [<-|Hx]; [now apply item_in in Ei|auto].
Qed.

Lemma take_raised {A : Type} index : forall (a : list A) e log,
    take index a = Raised e log -> e = IndexError /\ log = [].
Proof.
  induction index as [|i index IH]; intros a e log H; simpl in H; [discriminate|].
  destruct (item i a) as [x0|]; simpl in H; [|inversion H; auto].
  destruct (take index a) as [xs|e' log'] eqn:Et; simpl in H; [discriminate|].
  inversion H; subst. eauto.
Qed.

Lemma flat_in {datetime : Type} (rows : list (datetime * datetime)) d :
  In d (flat rows) <-> exists row, In row rows /\ (d = fst row \/ d = snd row).
Proof.
  unfold flat. rewrite in_flat_map. split; intros [row [Hr Hd]]; exists row; split;
    try assumption; simpl in *; intuition.
Qed.

Lemma flat_length {datetime : Type} (rows : list (datetime * datetime)) :
  List.length (flat rows) = (2 * List.length rows)%nat.
Proof. unfold flat. induction rows as [|r rows IH]; simpl; [reflexivity|]. rewrite IH. lia. Qed.

Section DatesMore.

Variable Units : Type.
Variable datetime : Type.

Implicit Type tc : TimeCoords Units datetime.

Lemma usable_dates tc :
  usable tc ->
  _get_field_start_end_dates (Some tc)
  = let index := if (size tc =? 1)%nat then [0%Z] else [0%Z; (-1)%Z] in
    match bounds tc with
    | Some b => rows <- take index b ;; Returned (flat rows)
    | None => take index (points tc)
    end.
Proof.
  intros [Hr Hn]. unfold _get_field_start_end_dates. rewrite Hr.
  assert (Hd : (1 <? ndim tc)%nat = false) by (apply Nat.ltb_ge; lia).
  now rewrite Hd.
Qed.

Lemma unusable_dates tc :
  ~ usable tc -> _get_field_start_end_dates (Some tc) = Returned [].
Proof.
  intros Hn. unfold _get_field_start_end_dates.
  destruct (isreftime tc) eqn:Hr; [|reflexivity].
  destruct (1 <? ndim tc)%nat eqn:Hd; [reflexivity|].
  exfalso. apply Hn. split; [assumption|]. apply Nat.ltb_ge in Hd. lia.
Qed.

(** X15. The empty result, which makes the parse skip the field, is given
    exactly for an axis that is not usable: one that is not a reference
    time or has more than one dimension.  A usable axis never gives it. *)
Theorem empty_dates_mean_unusable_axis :
  forall tc,
    _get_field_start_end_dates (Some tc) = Returned []
    <-> isreftime tc = false \/ (1 < ndim tc)%nat.
Proof.
  intros tc. split.
  - intros H.
    destruct (isreftime tc) eqn:Hr; [|now left].
    destruct (Nat.le_gt_cases (ndim tc) 1) as [Hn|Hn]; [|now right].
    exfalso. rewrite usable_dates in H by (split; assumption). cbv zeta in H.
    assert (Hi : forall index : list Z,
               index = (if (size tc =? 1)%nat then [0%Z] else [0%Z; (-1)%Z]) ->
               List.length index <> 0%nat)
      by (intros index ->; destruct (size tc =? 1)%nat; discriminate).
    specialize (Hi _ eq_refl). destruct (bounds tc) as [b|].
    + destruct (take _ b) as [rows|] eqn:Et; simpl in H; [|discriminate].
      apply take_returned in Et. destruct Et as [Hl _].
      inversion H as [Hf]. apply (f_equal (@List.length _)) in Hf.
      rewrite flat_length in Hf. simpl in Hf. lia.
    + apply take_returned in H. destruct H as [Hl _]. simpl in Hl. congruence.
  - intros H. apply unusable_dates. intros [Hr Hn]. destruct H as [H|H]; [congruence|lia].
Qed.

(** When the dates of an axis raise. *)
Lemma dates_raise_iff :
  forall tc,
    ((exists e log, _get_field_start_end_dates (Some tc) = Raised e log)
     <-> usable tc /\ (bounds tc = Some [] \/ (bounds tc = None /\ points tc = [])))
    /\ forall e log,
        _get_field_start_end_dates (Some tc) = Raised e log -> e = IndexError /\ log = [].
Proof.
  intros tc.
  assert (Hidx : forall A (a : list A),
             (exists e log,
                 take (if (size tc =? 1)%nat then [0%Z] else [0%Z; (-1)%Z]) a
                 = Raised e log)
             <-> a = []).
  { intros A a. split.
    - intros [e [log H]]. destruct a as [|x a]; [reflexivity|]. exfalso.
      destruct (size tc =? 1)%nat;
        [rewrite take_first in H|rewrite take_first_last in H]; discriminate.
    - intros ->. destruct (size tc =? 1)%nat; eexists; eexists; reflexivity. }
  split.
  - split.
    + intros [e [log H]].
      assert (Hu : usable tc).
      { destruct (isreftime tc) eqn:Hr; [|unfold _get_field_start_end_dates in H;
                                           rewrite Hr in H; discriminate].
        destruct (Nat.le_gt_cases (ndim tc) 1) as [Hn|Hn]; [split; assumption|].
        rewrite unusable_dates in H; [discriminate|]. intros [_ Hn']. lia. }
      split; [assumption|]. rewrite usable_dates in H by assumption. cbv zeta in H.
      destruct (bounds tc) as [b|].
      * left. f_equal. apply (Hidx _ b).
        destruct (take _ b) as [rows|e' log'] eqn:Et; simpl in H; [discriminate|].
        eauto.
      * right. split; [reflexivity|]. apply (Hidx _ (points tc)). eauto.
    + intros [Hu Hcase]. rewrite usable_dates by assumption. cbv zeta.
      destruct Hcase as [Hb|[Hb Hp]]; rewrite Hb.
      * destruct (proj2 (Hidx _ (@nil (datetime * datetime))) eq_refl) as [e [log He]].
        rewrite He. simpl. eauto.
      * apply Hidx. assumption.
  - intros e log H.
    destruct (isreftime tc) eqn:Hr; [|unfold _get_field_start_end_dates in H;
                                         rewrite Hr in H; discriminate].
    destruct (Nat.le_gt_cases (ndim tc) 1) as [Hn|Hn].
    + rewrite usable_dates in H by (split; assumption). cbv zeta in H.
      destruct (bounds tc) as [b|].
      * destruct (take _ b) as [rows|e' log'] eqn:Et; simpl in H; [discriminate|].
        inversion H; subst. now apply take_raised in Et.
      * now apply take_raised in H.
    + rewrite unusable_dates in H; [discriminate|]. intros [_ Hn']. lia.
Qed.

(** X16. The dates of an axis raise exactly when the axis is usable and
    the array that is indexed has no row: empty bounds, or no bounds and
    no cell.  The exception is then IndexError, and the function logs
    nothing. *)
Theorem dates_raise_on_an_empty_axis :
  forall tc,
    ((exists e log, _get_field_start_end_dates (Some tc) = Raised e log)
     <-> usable tc /\ (bounds tc = Some [] \/ (bounds tc = None /\ points tc = [])))
    /\ forall e log,
        _get_field_start_end_dates (Some tc) = Raised e log -> e = IndexError /\ log = [].
Proof. exact dates_raise_iff. Qed.

(** X17. Every date of the range is a date of the axis itself: a point of
    the coordinate when it has no bounds, a bound of one of its cells when
    it has.  The range never holds more than four dates. *)
Theorem dates_come_from_the_axis :
  forall tc dates,
    _get_field_start_end_dates (Some tc) = Returned dates ->
    (List.length dates <= 4)%nat
    /\ forall d, In d dates ->
                 match bounds tc with
                 | None => In d (points tc)
                 | Some b => exists row, In row b /\ (d = fst row \/ d = snd row)
                 end.
Proof.
  intros tc dates H.
  destruct (isreftime tc) eqn:Hr;
    [|unfold _get_field_start_end_dates in H; rewrite Hr in H; inversion H;
      split; [simpl; lia|intros d []]].
  destruct (Nat.le_gt_cases (ndim tc) 1) as [Hn|Hn].
  - rewrite usable_dates in H by (split; assumption). cbv zeta in H.
    assert (Hi : forall index : list Z,
               index = (if (size tc =? 1)%nat then [0%Z] else [0%Z; (-1)%Z]) ->
               (List.length index <= 2)%nat)
      by (intros index ->; destruct (size tc =? 1)%nat; simpl; lia).
    specialize (Hi _ eq_refl). destruct (bounds tc) as [b|].
    + destruct (take _ b) as [rows|] eqn:Et; simpl in H; [|discriminate].
      apply take_returned in Et. destruct Et as [Hl Hin]. inversion H; subst.
      split; [rewrite flat_length; lia|].
      intros d Hd. apply flat_in in Hd. destruct Hd as [row [Hrow Hd]].
      exists row. auto.
    + apply take_returned in H. destruct H as [Hl Hin]. split; [lia|assumption].
  - rewrite unusable_dates in H by (intros [_ Hn']; lia). inversion H.
    split; [simpl; lia|intros d []].
Qed.

End DatesMore.

(** ** The units of the parent *)

Lemma list_of_append a b :
  list_ascii_of_string (String.append a b)
  = list_ascii_of_string a ++ list_ascii_of_string b.
Proof. induction a as [|c a IH]; simpl; congruence. Qed.

Lemma span_all p (a : list ascii) x r :
  Forall (fun c => p c = true) a -> p x = false ->
  PyFloat.span p (a ++ x :: r) = (a, x :: r).
Proof.
  intros Ha Hx. induction Ha as [|c a Hc _ IH]; simpl.
  - now rewrite Hx.
  - now rewrite Hc, IH.
Qed.

Lemma tail_no_open l :
  Forall (fun c => not_open c = true) l -> UnitsPattern.tail l = None.
Proof.
  unfold UnitsPattern.tail. induction 1 as [|c l Hc _ IH]; simpl; [reflexivity|].
  destruct (UnitsPattern.is_blank c).
  - destruct (PyFloat.span UnitsPattern.is_blank l). exact IH.
  - simpl. unfold not_open in Hc. apply Bool.negb_true_iff in Hc. now rewrite Hc.
Qed.

Lemma groups_no_open l :
  Forall (fun c => not_open c = true) l -> UnitsPattern.groups l = None.
Proof.
  induction 1 as [|c l Hc Hl IH].
  - reflexivity.
  - cbn [UnitsPattern.groups]. rewrite IH.
    rewrite (tail_no_open (c :: l)) by now constructor.
    now destruct (UnitsPattern.is_newline c).
Qed.

Lemma tail_open cal r :
  Forall (fun c => UnitsPattern.inside c = true) cal ->
  UnitsPattern.tail ("("%char :: cal ++ ")"%char :: r) = Some cal.
Proof.
  intros Hin. unfold UnitsPattern.tail. simpl.
  now rewrite (span_all UnitsPattern.inside cal ")"%char r Hin eq_refl).
Qed.

Lemma groups_description desc cal :
  Forall (fun c => on_the_line c = true) desc ->
  Forall (fun c => in_parentheses c = true) cal ->
  UnitsPattern.groups (desc ++ "("%char :: cal ++ [")"%char]) = Some (desc, cal).
Proof.
  intros Hd Hc.
  assert (Hin : Forall (fun c => UnitsPattern.inside c = true) cal).
  { eapply Forall_impl; [|exact Hc]. intros c H. unfold in_parentheses in H.
    now apply andb_prop in H. }
  assert (Hop : Forall (fun c => not_open c = true) (cal ++ [")"%char])).
  { apply Forall_app. split; [|repeat constructor].
    eapply Forall_impl; [|exact Hc]. intros c H. unfold in_parentheses in H.
    now apply andb_prop in H. }
  induction Hd as [|c desc Hcl _ IH].
  - cbn [app UnitsPattern.groups].
    rewrite (groups_no_open _ Hop), (tail_open cal [] Hin). reflexivity.
  - cbn [app UnitsPattern.groups]. rewrite IH.
    unfold on_the_line in Hcl. apply Bool.negb_true_iff in Hcl. now rewrite Hcl.
Qed.

Lemma re_match_no_open s :
  all_chars not_open s = true -> UnitsPattern.re_match s = None.
Proof.
  intros H. unfold UnitsPattern.re_match.
  now rewrite groups_no_open by now apply all_chars_forall.
Qed.

Lemma re_match_description desc cal :
  all_chars on_the_line desc = true ->
  all_chars in_parentheses cal = true ->
  UnitsPattern.re_match
    (String.append desc (String "(" (String.append cal ")")))
  = Some (desc, cal).
Proof.
  intros Hd Hc. unfold UnitsPattern.re_match.
  rewrite list_of_append. cbn [list_ascii_of_string]. rewrite list_of_append.
  cbn [list_ascii_of_string].
  rewrite groups_description by now apply all_chars_forall.
  simpl. now rewrite !string_of_list_ascii_of_string.
Qed.

Section ParentUnits.

Variable Units : Type.
Variable datetime : Type.
Variable cf_Units : string -> value -> outcome Units.

Local Abbreviation parent_units := (resolve_parent_time_units Units datetime cf_Units).

(** X18. A parent_time_units written as a description followed by a
    calendar in parentheses is taken apart at the last opening
    parenthesis: the units are built from the description, blanks at its
    end included, and the calendar.  A text without an opening parenthesis,
    other than the words no parent, is taken whole, with the calendar of
    the field. *)
Theorem parent_time_units_with_calendar :
  forall (cim2_properties : properties_t) global_attributes
         (time_coords : option (TimeCoords Units datetime)),
    (forall desc cal,
        all_chars on_the_line desc = true ->
        all_chars in_parentheses cal = true ->
        PyDict.get "parent_time_units" global_attributes
        = Some (VStr (String.append desc (String "(" (String.append cal ")")))) ->
        parent_units cim2_properties global_attributes time_coords
        = cf_Units desc (VStr cal))
    /\ (forall s,
          all_chars not_open s = true -> s <> "no parent" ->
          PyDict.get "parent_time_units" global_attributes = Some (VStr s) ->
          parent_units cim2_properties global_attributes time_coords
          = (cal <- or_raise (KeyError "calendar")
                             (PyDict.get "calendar" cim2_properties) ;;
             cf_Units s cal)).
Proof.
  intros props ga tc. split.
  - intros desc cal Hd Hc Hg. unfold resolve_parent_time_units. rewrite Hg.
    pose proof (re_match_description desc cal Hd Hc) as Hm.
    destruct (String.eqb_spec
                (String.append desc (String "(" (String.append cal ")"))) "no parent")
      as [E|_].
    + rewrite E in Hm. vm_compute in Hm. discriminate.
    + now rewrite Hm.
  - intros s Hs Hne Hg. unfold resolve_parent_time_units. rewrite Hg.
    apply String.eqb_neq in Hne. rewrite Hne.
    now rewrite (re_match_no_open s Hs).
Qed.

End ParentUnits.

(** ** Branch times written as text *)

Lemma remove_char_append c a b :
  PyStr.remove_char c (String.append a b)
  = String.append (PyStr.remove_char c a) (PyStr.remove_char c b).
Proof.
  induction a as [|x a IH]; simpl; [reflexivity|].
  destruct (Ascii.eqb x c); simpl; now rewrite IH.
Qed.

(** X19. A D counts for nothing in a branch time that is text, wherever it
    stands: the text with the D and the text without it are coerced to the
    same number, or refused alike.  What is read is the text without its
    Ds, the other characters in their order. *)
Theorem a_D_in_a_branch_time_counts_for_nothing :
  forall a b msg,
    float_of_replaced (VStr (String.append a (String "D" b))) msg
    = float_of_replaced (VStr (String.append a b)) msg
    /\ PyStr.remove_char "D" (String.append a (String "D" b))
       = filter_chars (fun c => negb (Ascii.eqb c "D")) (String.append a b).
Proof.
  assert (Hf : forall s, PyStr.remove_char "D" s
                         = filter_chars (fun c => negb (Ascii.eqb c "D")) s).
  { induction s as [|x s IH]; simpl; [reflexivity|].
    destruct (Ascii.eqb x "D"); simpl; now rewrite IH. }
  assert (Hr : forall a b, PyStr.remove_char "D" (String.append a (String "D" b))
                           = PyStr.remove_char "D" (String.append a b)).
  { intros a b. now rewrite !remove_char_append. }
  intros a b msg. split.
  - unfold float_of_replaced. now rewrite Hr.
  - now rewrite Hr, Hf.
Qed.

(** ** Which error comes first *)

Section ParserErrors.

Variable Units : Type.
Variable datetime : Type.
Variable cf_Units : string -> value -> outcome Units.
Variable cf_date_string : value -> Units -> outcome string.
Variable CMIP6 CMIP5 : string.
Variable CMIP6_TO_CIM2 CMIP5_TO_CIM2 : dict string.

Local Abbreviation parse_field :=
  (parse Units datetime cf_Units cf_date_string CMIP6 CMIP5 CMIP6_TO_CIM2 CMIP5_TO_CIM2).

(** X20. An exception of the dates of the axis leaves the parse as it is,
    with the one line of the handler of the dates in the log.  It comes
    before the era is looked at, so a field without a detectable era and
    with a usable axis without cells raises IndexError, not the error of
    the era. *)
Theorem dates_error_comes_first :
  forall (cf_field : Field Units datetime),
    equals_text (PyDict.get "frequency" (properties cf_field)) "fx" = false ->
    (forall e log,
        _get_field_start_end_dates (dim_T cf_field) = Raised e log ->
        parse_field cf_field
        = Raised e (log ++ ["Debug: Failed while parsing:{'start and end dates'}"]))
    /\ (forall tc,
          dim_T cf_field = Some tc -> usable tc ->
          bounds tc = Some [] \/ (bounds tc = None /\ points tc = []) ->
          parse_field cf_field
          = Raised IndexError ["Debug: Failed while parsing:{'start and end dates'}"]).
Proof.
  intros f Hfx.
  assert (H1 : forall e log,
             _get_field_start_end_dates (dim_T f) = Raised e log ->
             parse_field f
             = Raised e (log ++ ["Debug: Failed while parsing:{'start and end dates'}"])).
  { intros e log H. unfold parse. rewrite Hfx. cbv iota.
    rewrite axis_read by (intros E; rewrite E in H; discriminate H).
    simpl. rewrite H. reflexivity. }
  split; [exact H1|].
  intros tc Htc Hu Hcase.
  destruct (dates_raise_iff Units datetime tc) as [[_ Hraise] Hkind].
  destruct (Hraise (conj Hu Hcase)) as [e [log He]].
  destruct (Hkind e log He) as [-> ->].
  rewrite <- Htc in He. now rewrite (H1 _ _ He).
Qed.

End ParserErrors.

(** ** More statements on the small instance *)

Lemma sample_parses :
  Sample.parse Sample2.field_a
  = Returned (Some Sample2.id_a, Some Sample2.props_a, Some [10%Z; 20%Z])
  /\ Sample.parse Sample2.field_b
     = Returned (Some Sample2.id_a, Some Sample2.props_b, Some [30%Z])
  /\ Sample.parse Sample2.field_bad = Raised (UnboundLocalError "simple_mapping") []
  /\ Sample.parse Sample2.field_fx = Returned (None, None, None).
Proof. repeat split; reflexivity. Qed.

Lemma parent_indices_are_naturals_witness :
  In ("parent_physics_index", VInt 3) (parent_indices "r1i2p-3")
  /\ (In "parent_physics_index" parent_index_names
      /\ exists n, VInt 3 = VInt n /\ (0 <= n)%Z).
Proof.
  assert (H : In ("parent_physics_index", VInt 3) (parent_indices "r1i2p-3"))
    by (right; right; left; reflexivity).
  split; [exact H|].
  exact (proj2 (parent_indices_are_naturals "r1i2p-3") "parent_physics_index" (VInt 3) H).
Defined.

Lemma cmip6_writes_seven_keys_witness :
  Sample2.cmip6 [("calendar", VStr "noleap")] Sample2.attrs_a (Some (Sample.axis [10%Z] None))
  = Returned [("calendar", VStr "noleap"); ("activity_id", VTuple ["CMIP"])]
  /\ PyDict.get "calendar" [("calendar", VStr "noleap"); ("activity_id", VTuple ["CMIP"])]
     = PyDict.get "calendar" [("calendar", VStr "noleap")].
Proof.
  split; [reflexivity|].
  apply (proj1 (cmip6_writes_seven_keys Sample.Units Sample.datetime Sample.cf_Units
                  Sample.cf_date_string [("calendar", VStr "noleap")]
                  [("calendar", VStr "noleap"); ("activity_id", VTuple ["CMIP"])]
                  Sample2.attrs_a (Some (Sample.axis [10%Z] None)) eq_refl)).
  unfold cmip6_written, parent_index_names. simpl. intuition discriminate.
Defined.

Lemma cmip5_returns_without_pruning_witness :
  exists after,
    Sample2.cmip5 [("forcing", VStr "GHG")] [("parent_experiment_rip", VStr "r1i1p1")]
                  (Some (Sample.axis [10%Z] None))
    = Returned after.
Proof.
  apply (proj2 (proj1 (cmip5_returns_without_pruning Sample.Units Sample.datetime
                         [("forcing", VStr "GHG")]
                         [("parent_experiment_rip", VStr "r1i1p1")]
                         (Some (Sample.axis [10%Z] None))))).
  split; reflexivity.
Defined.

Lemma populated_properties_are_a_mapping_witness : PyDict.wf Sample2.props_a.
Proof.
  exact (proj1 (populated_properties_are_a_mapping Sample.Units Sample.datetime
                  Sample.cf_Units Sample.cf_date_string Sample.CMIP6 Sample.CMIP5
                  Sample.CMIP6_TO_CIM2 Sample.CMIP5_TO_CIM2
                  Sample2.field_a Sample2.id_a Sample2.props_a [10%Z; 20%Z] eq_refl)).
Defined.

Lemma populated_result_records_the_path_witness :
  PyDict.get "filenames" Sample2.props_a = Some (VStr "/data/v1/tas_1850.nc").
Proof.
  exact (proj1 (populated_result_records_the_path Sample.Units Sample.datetime
                  Sample.cf_Units Sample.cf_date_string Sample.CMIP6 Sample.CMIP5
                  Sample.CMIP6_TO_CIM2 Sample.CMIP5_TO_CIM2
                  Sample2.field_a Sample2.id_a Sample2.props_a [10%Z; 20%Z] eq_refl)).
Defined.

Lemma populated_result_maps_the_attributes_witness :
  exists table,
    ((era_is (_get_mip_era Sample.CMIP6 Sample.CMIP5 Sample2.attrs_a) Sample.CMIP6 = true
      /\ table = Sample.CMIP6_TO_CIM2)
     \/ (era_is (_get_mip_era Sample.CMIP6 Sample.CMIP5 Sample2.attrs_a) Sample.CMIP6 = false
         /\ table = Sample.CMIP5_TO_CIM2))
    /\ (NoDup (map snd table) ->
        forall attribute name,
          In (attribute, name) table -> ~ In name written_after_mapping ->
          PyDict.get name Sample2.props_a = PyDict.get attribute Sample2.attrs_a).
Proof.
  exact (populated_result_maps_the_attributes Sample.Units Sample.datetime
           Sample.cf_Units Sample.cf_date_string Sample.CMIP6 Sample.CMIP5
           Sample.CMIP6_TO_CIM2 Sample.CMIP5_TO_CIM2
           Sample2.field_a Sample2.id_a Sample2.props_a [10%Z; 20%Z] eq_refl).
Defined.

Lemma path_without_slash_raises_witness :
  all_chars not_slash "tas.nc" = true
  /\ Sample.parse (Sample2.field_at "tas.nc" Sample2.attrs_a (Some (Sample.axis [10%Z] None)))
     = Raised IndexError [].
Proof.
  split; [reflexivity|].
  apply (path_without_slash_raises Sample.Units Sample.datetime
           Sample.cf_Units Sample.cf_date_string Sample.CMIP6 Sample.CMIP5
           Sample.CMIP6_TO_CIM2 Sample.CMIP5_TO_CIM2
           (Sample2.field_at "tas.nc" Sample2.attrs_a (Some (Sample.axis [10%Z] None)))
           10%Z []); try reflexivity.
  left. reflexivity.
Defined.

Lemma files_of_one_simulation_share_the_identifier_witness :
  fpath Sample2.field_a <> fpath Sample2.field_b
  /\ Sample2.id_a = Sample2.id_a.
Proof.
  split; [discriminate|].
  exact (files_of_one_simulation_share_the_identifier Sample.Units Sample.datetime
           Sample.cf_Units Sample.cf_date_string Sample.CMIP6 Sample.CMIP5
           Sample.CMIP6_TO_CIM2 Sample.CMIP5_TO_CIM2
           Sample2.field_a Sample2.field_b
           Sample2.id_a Sample2.props_a [10%Z; 20%Z]
           Sample2.id_a Sample2.props_b [30%Z]
           eq_refl eq_refl eq_refl eq_refl eq_refl).
Defined.

Lemma yield_parsed_stops_at_the_first_error_witness :
  Sample2.events [[Sample2.field_fx]; [Sample2.field_a; Sample2.field_bad; Sample2.field_b];
                  [Sample2.field_b]]
  = ([CloseOneFile Sample.Units Sample.datetime; Sample2.yield_a],
     Some (UnboundLocalError "simple_mapping", [failed_msg "/data/v1/bad.nc"])).
Proof.
  exact (yield_parsed_stops_at_the_first_error Sample.Units Sample.datetime
           Sample.cf_Units Sample.cf_date_string Sample.CMIP6 Sample.CMIP5
           Sample.CMIP6_TO_CIM2 Sample.CMIP5_TO_CIM2
           [[Sample2.field_fx]] [Sample2.field_a] Sample2.field_bad [Sample2.field_b]
           [[Sample2.field_b]]
           [CloseOneFile Sample.Units Sample.datetime] [Sample2.yield_a]
           (UnboundLocalError "simple_mapping") []
           eq_refl eq_refl eq_refl).
Defined.

Lemma yield_parsed_yields_parsed_fields_only_witness :
  Sample.parse Sample2.field_a
  = Returned (Some Sample2.id_a, Some Sample2.props_a, Some [10%Z; 20%Z])
  /\ equals_text (PyDict.get "frequency" (properties Sample2.field_a)) "fx" = false.
Proof.
  pose proof (yield_parsed_yields_parsed_fields_only Sample.Units Sample.datetime
                Sample.cf_Units Sample.cf_date_string Sample.CMIP6 Sample.CMIP5
                Sample.CMIP6_TO_CIM2 Sample.CMIP5_TO_CIM2
                [[Sample2.field_fx; Sample2.field_a]]
                [Sample2.yield_a; CloseOneFile Sample.Units Sample.datetime] None
                Sample2.field_a (Some Sample2.id_a) (Some Sample2.props_a)
                (Some [10%Z; 20%Z]) eq_refl (or_introl eq_refl)) as [_ [Hp [_ Hfx]]].
  split; assumption.
Defined.

Lemma yield_parsed_closes_each_file_once_witness :
  List.length
    (filter is_close
       [Sample2.yield_a; CloseOneFile Sample.Units Sample.datetime;
        CloseOneFile Sample.Units Sample.datetime])
  = 2%nat.
Proof.
  exact (yield_parsed_closes_each_file_once Sample.Units Sample.datetime
           Sample.cf_Units Sample.cf_date_string Sample.CMIP6 Sample.CMIP5
           Sample.CMIP6_TO_CIM2 Sample.CMIP5_TO_CIM2
           [[Sample2.field_a]; [Sample2.field_fx]]
           [Sample2.yield_a; CloseOneFile Sample.Units Sample.datetime;
            CloseOneFile Sample.Units Sample.datetime]
           None eq_refl).
Defined.

Lemma empty_dates_mean_unusable_axis_witness :
  _get_field_start_end_dates (Some Sample2.plane_axis) = Returned [].
Proof.
  apply (proj2 (empty_dates_mean_unusable_axis Sample.Units Sample.datetime
                  Sample2.plane_axis)).
  right. apply le_n.
Defined.

Lemma dates_raise_on_an_empty_axis_witness :
  exists e log, _get_field_start_end_dates (Some Sample2.empty_axis) = Raised e log.
Proof.
  apply (proj2 (proj1 (dates_raise_on_an_empty_axis Sample.Units Sample.datetime
                         Sample2.empty_axis))).
  split; [split; [reflexivity|apply le_n]|].
  right. split; reflexivity.
Defined.

Lemma dates_come_from_the_axis_witness :
  In 30%Z (points (Sample.axis [10%Z; 20%Z; 30%Z] None)).
Proof.
  exact (proj2 (dates_come_from_the_axis Sample.Units Sample.datetime
                  (Sample.axis [10%Z; 20%Z; 30%Z] None) [10%Z; 30%Z] eq_refl)
               30%Z (or_intror (or_introl eq_refl))).
Defined.

Lemma parent_time_units_with_calendar_witness :
  resolve_parent_time_units Sample.Units Sample.datetime Sample.cf_Units
    [] [("parent_time_units", VStr "days since 1850-01-01 (noleap)")] None
  = Sample.cf_Units "days since 1850-01-01 " (VStr "noleap").
Proof.
  apply (proj1 (parent_time_units_with_calendar Sample.Units Sample.datetime
                  Sample.cf_Units []
                  [("parent_time_units", VStr "days since 1850-01-01 (noleap)")] None)
           "days since 1850-01-01 " "noleap"); reflexivity.
Defined.

Lemma dates_error_comes_first_witness :
  Sample.parse (Sample2.field_at "/data/v1/none.nc" [] (Some Sample2.empty_axis))
  = Raised IndexError ["Debug: Failed while parsing:{'start and end dates'}"].
Proof.
  apply (proj2 (dates_error_comes_first Sample.Units Sample.datetime
                  Sample.cf_Units Sample.cf_date_string Sample.CMIP6 Sample.CMIP5
                  Sample.CMIP6_TO_CIM2 Sample.CMIP5_TO_CIM2
                  (Sample2.field_at "/data/v1/none.nc" [] (Some Sample2.empty_axis))
                  eq_refl)
           Sample2.empty_axis eq_refl).
  - split; [reflexivity|apply le_n].
  - right. split; reflexivity.
Defined.
